(** * Patient-intake assistant: store, callable operations, phase controller

    A shallow embedding of [backend/db_driver.py], [backend/api.py],
    [backend/prompts.py] and the speech handler of [backend/agent.py],
    with the properties the specification states about them.

    Conventions of the embedding:
    - a Python [str] is a [string]; an [int] is a [Z];
    - a call that may raise returns an [outcome]: [Return v] or [Raise e];
    - the SQLite table [patients] is a finite map from its primary key
      [patient_id] to the remaining columns;
    - what the interpreter and its libraries supply ([float], [str.lower],
      [int()], [float()], [datetime.fromisoformat]) is an interface,
      [PythonRuntime];
    - logging calls have no effect on the modelled state and are left out. *)

From Stdlib Require Import ZArith NArith Lia List Bool Ascii String.
From stdpp Require Import gmap strings.
Import ListNotations.

Local Open Scope string_scope.
Local Open Scope Z_scope.

(* stdpp blocks the unfolding of string concatenation; allow it again, on a
   first argument that starts with a constructor. *)
#[local] Arguments String.append !s1 s2 : simpl nomatch.

(** ** Exceptions and outcomes *)

Module Py.

(** The exception classes that occur; every one of them is a subclass of
    [Exception], so [except Exception] catches each. *)
Inductive exn_class :=
| ValueError | TypeError | OverflowError | OSError
| IntegrityError | OperationalError.

Record exn := Exn { exn_cls : exn_class; exn_msg : string }.

(** [str(e)] *)
Definition str_exn (e : exn) : string := exn_msg e.

Inductive outcome (A : Type) :=
| Return (a : A)
| Raise (e : exn).
Arguments Return {A} a.
Arguments Raise {A} e.

Definition bind {A B} (m : outcome A) (k : A -> outcome B) : outcome B :=
  match m with
  | Return a => k a
  | Raise e => Raise e
  end.

Definition returns {A} (m : outcome A) : bool :=
  match m with Return _ => true | Raise _ => false end.

(** *** Decimal rendering: [str(n)] for an [int] *)

Definition digit_char (d : N) : ascii := ascii_of_N (48 + d).

(** Digits are produced from the least significant one; [fuel] bounds the
    number of digits. *)
Fixpoint dec_digits (fuel : nat) (n : N) (acc : string) : string :=
  match fuel with
  | O => acc
  | S fuel' =>
      let acc' := String (digit_char (n mod 10)) acc in
      if (n / 10 =? 0)%N then acc' else dec_digits fuel' (n / 10) acc'
  end.

Definition str_N (n : N) : string :=
  dec_digits (S (N.to_nat (N.log2 n))) n "".

Definition str_Z (z : Z) : string :=
  match z with
  | Zneg p => String "-" (str_N (Npos p))
  | _ => str_N (Z.to_N z)
  end.

Definition str_nat (n : nat) : string := str_N (N.of_nat n).

Definition is_digit (c : ascii) : bool :=
  let n := N_of_ascii c in ((48 <=? n) && (n <=? 57))%N.

Fixpoint all_digits (s : string) : bool :=
  match s with
  | EmptyString => true
  | String c s' => is_digit c && all_digits s'
  end.

(** *** Substring test: [needle in hay] *)

Fixpoint startswith (p s : string) : bool :=
  match p, s with
  | EmptyString, _ => true
  | String a p', String b s' => Ascii.eqb a b && startswith p' s'
  | String _ _, EmptyString => false
  end.

Fixpoint str_in (needle hay : string) : bool :=
  startswith needle hay ||
  match hay with
  | EmptyString => false
  | String _ hay' => str_in needle hay'
  end.

(** [any(p in s for p in phrases)] *)
Definition any_in (phrases : list string) (s : string) : bool :=
  existsb (fun p => str_in p s) phrases.

(** [sep.join(items)] *)
Fixpoint join (sep : string) (items : list string) : string :=
  match items with
  | [] => ""
  | [x] => x
  | x :: rest => x ++ sep ++ join sep rest
  end.

End Py.
Import Py.

(** ** What the interpreter supplies *)

(** Floating-point numbers, the string conversions of the built-in types,
    case folding and ISO timestamps belong to Python, not to the program.
    The program is modelled over any implementation of them. *)
Class PythonRuntime := {
  float : Type;
  (** [bool(x)]: false exactly for zero *)
  float_truthy : float -> bool;
  (** [str(x)] *)
  str_float : float -> string;
  (** [int(x)] for a float: truncation; raises on infinities and NaN *)
  int_of_float : float -> outcome Z;
  (** [float(n)] for an int: raises [OverflowError] when out of range *)
  float_of_int : Z -> outcome float;
  (** [int(s)] and [float(s)] for a str: raise [ValueError] on a bad literal *)
  int_of_str : string -> outcome Z;
  float_of_str : string -> outcome float;
  (** [s.lower()] *)
  lower : string -> string;
  datetime : Type;
  (** [datetime.fromisoformat(s)]; [None] stands for its [ValueError] *)
  fromisoformat : string -> option datetime;
}.

(** ** db_driver.py *)

Module DbDriver.
Section WithRuntime.
Context `{PythonRuntime}.

(** [@dataclass class Patient] *)
Record Patient := {
  patient_id : string;
  name : string;
  age : Z;
  height : float;
  gender : string;
  blood_group : string;
  weight : float;
  created_at : option datetime;
}.

(** A row of [patients] without its key. [created_at] is the [TIMESTAMP]
    column: text, or [NULL]. *)
Record row := {
  row_name : string;
  row_age : Z;
  row_height : float;
  row_gender : string;
  row_blood_group : string;
  row_weight : float;
  row_created_at : option string;
}.

(** [SELECT * FROM patients WHERE patient_id = ?] then [fetchone()] *)
Definition select_by_id (db : gmap string row) (patient_id : string) : option row :=
  db !! patient_id.

(** [sqlite3.IntegrityError], raised for a primary key that is taken. *)
Definition duplicate_error : exn :=
  Exn IntegrityError "UNIQUE constraint failed: patients.patient_id".

(** [INSERT INTO patients (patient_id, name, ...) VALUES (...)] followed by
    [commit()]. The primary key is the uniqueness gate; [created_at] takes
    its default, [CURRENT_TIMESTAMP], here [now]. *)
Definition insert_patient (now : string) (db : gmap string row)
    (patient_id name : string) (age : Z) (height : float)
    (gender blood_group : string) (weight : float) : outcome (gmap string row) :=
  match db !! patient_id with
  | Some _ => Raise duplicate_error
  | None =>
      Return (<[patient_id :=
                 {| row_name := name; row_age := age; row_height := height;
                    row_gender := gender; row_blood_group := blood_group;
                    row_weight := weight; row_created_at := Some now |}]> db)
  end.

(** The timestamp parsing of [get_patient_by_id]:
    [if row[7]: try: fromisoformat(row[7]) except ValueError: None]. *)
Definition parse_created_at (col : option string) : option datetime :=
  match col with
  | None => None
  | Some "" => None
  | Some text => fromisoformat text
  end.

(** [fault] is the error, if any, that SQLite raises when the call first
    touches the database file (it cannot be opened, read or locked). *)
Definition get_patient_by_id (fault : option exn) (db : gmap string row)
    (patient_id : string) : outcome (option Patient) :=
  match fault with
  | Some e => Raise e
  | None =>
      match select_by_id db patient_id with
      | None => Return None
      | Some r =>
          Return (Some {| patient_id := patient_id;
                          name := row_name r;
                          age := row_age r;
                          height := row_height r;
                          gender := row_gender r;
                          blood_group := row_blood_group r;
                          weight := row_weight r;
                          created_at := parse_created_at (row_created_at r) |})
      end
  end.

(** [random.randint(lo, hi)] from one raw draw [r] of the generator. *)
Definition randint (lo hi r : N) : N := (lo + r mod (hi - lo + 1))%N.

(** [f"P{random_number}"] *)
Definition candidate_id (r : N) : string :=
  String "P" (str_N (randint 10000000 99999999 r)).

(** The [while True] loop of [_generate_patient_id], one iteration per
    draw. [None]: every draw given was taken, the loop is still running. *)
Fixpoint _generate_patient_id (fault : option exn) (db : gmap string row)
    (draws : list N) : option (outcome string) :=
  match draws with
  | [] => None
  | r :: draws' =>
      let patient_id := candidate_id r in
      match get_patient_by_id fault db patient_id with
      | Raise e => Some (Raise e)
      | Return None => Some (Return patient_id)
      | Return (Some _) => _generate_patient_id fault db draws'
      end
  end.

(** [if not patient_id]: the argument is absent or the empty string. *)
Definition id_missing (patient_id : option string) : bool :=
  match patient_id with
  | None | Some "" => true
  | Some _ => false
  end.

(** [create_patient]: the result and the table afterwards. [None] only when
    identifier generation ran out of draws. The call opens several
    connections: [fault] is the error, if any, that SQLite raises before
    the insertion is committed (in a look-up of identifier generation or in
    the insertion itself); [read_fault] is the one it raises when the row
    is read back, on a new connection, after the commit. *)
Definition create_patient (fault read_fault : option exn) (now : string)
    (draws : list N) (db : gmap string row)
    (name : string) (age : Z) (height : float) (gender blood_group : string)
    (weight : float) (patient_id : option string)
    : option (outcome (option Patient) * gmap string row) :=
  let chosen :=
    if id_missing patient_id then _generate_patient_id fault db draws
    else Some (Return (default "" patient_id)) in
  match chosen with
  | None => None
  | Some (Raise e) => Some (Raise e, db)
  | Some (Return pid) =>
      match fault with
      | Some e => Some (Raise e, db)
      | None =>
          match insert_patient now db pid name age height gender blood_group weight with
          | Raise e => Some (Raise e, db)
          | Return db' => Some (get_patient_by_id read_fault db' pid, db')
          end
      end
  end.

End WithRuntime.
End DbDriver.

(** ** prompts.py *)

Module Prompts.
Definition SYMPTOM_COLLECTION_MESSAGE : string :=
  "
    Now that we have your basic information, let's discuss your symptoms. Please describe what symptoms you're experiencing, 
    including when they started, how severe they are, and any other details you think might be relevant. 
    I'll ask follow-up questions to better understand your condition.
".

Definition CONVERSATION_COMPLETION_MESSAGE : string :=
  "
    Thank you for providing all this information. Is there anything else you'd like to add about your symptoms or condition? 
    If you feel we've covered everything, I can generate your initial diagnostic report now.
".

Definition REPORT_GENERATION_MESSAGE : string :=
  "
    I'm now generating your diagnostic report based on the information and symptoms you've provided. 
    This report will be saved for your healthcare provider to review. Thank you for using our health assistant service.
".

Definition LOOKUP_PATIENT_MESSAGE (msg : string) : string :=
  "If the patient has provided a patient ID attempt to look it up. 
                                    If they don't have a patient ID or the patient ID does not exist in the database 
                                    create the entry in the database using your tools. If the patient doesn't have an ID, ask them for the
                                    details required to create a new patient profile (name, age, height, gender, blood group, weight). Here is the patient's message: "
  ++ msg.

Definition SYMPTOM_FOLLOWUP_MESSAGE (symptoms : list string) : string :=
  "Based on the symptoms you've mentioned so far: "
  ++ join ", " symptoms ++
  ", 
                                            I'd like to gather more details. Can you tell me more about the severity, 
                                            duration, or any patterns you've noticed with these symptoms? 
                                            Are there any other symptoms you're experiencing?".

End Prompts.

(** ** api.py *)

Module Api.
Import DbDriver.
Section WithRuntime.
Context `{PythonRuntime}.

(** [REPORT_GEN.generate_and_save_report(patient, symptoms)]: the report
    generator is a collaborator of this module; it returns the path of the
    saved report or raises. *)
Variable generate_and_save_report : Patient -> list string -> outcome string.

(** [class PatientDetails(enum.Enum)] and the [.value] of each member *)
Inductive PatientDetails :=
| PATIENT_ID | NAME | AGE | HEIGHT | GENDER | BLOOD_GROUP | WEIGHT.

Definition value (k : PatientDetails) : string :=
  match k with
  | PATIENT_ID => "patient_id"
  | NAME => "name"
  | AGE => "age"
  | HEIGHT => "height"
  | GENDER => "gender"
  | BLOOD_GROUP => "blood_group"
  | WEIGHT => "weight"
  end.

(** A value held under a key of [_patient_details]: the initial empty
    string, or a field of an adopted record. *)
Inductive pyval :=
| VStr (s : string)
| VInt (z : Z)
| VFloat (x : float).

(** [bool(v)] *)
Definition truthy (v : pyval) : bool :=
  match v with
  | VStr "" => false
  | VStr _ => true
  | VInt z => negb (z =? 0)
  | VFloat x => float_truthy x
  end.

(** [format(v)] as an f-string field *)
Definition format (v : pyval) : string :=
  match v with
  | VStr s => s
  | VInt z => str_Z z
  | VFloat x => str_float x
  end.

(** [int(v)] and [float(v)] *)
Definition py_int (v : pyval) : outcome Z :=
  match v with
  | VStr s => int_of_str s
  | VInt z => Return z
  | VFloat x => int_of_float x
  end.

Definition py_float (v : pyval) : outcome float :=
  match v with
  | VStr s => float_of_str s
  | VInt z => float_of_int z
  | VFloat x => Return x
  end.

(** The dictionary [_patient_details]: always the same seven keys, in this
    order. The text fields only ever hold a [str]; the numeric ones hold
    the initial empty string or a number. *)
Record details := {
  d_patient_id : string;
  d_name : string;
  d_age : pyval;
  d_height : pyval;
  d_gender : string;
  d_blood_group : string;
  d_weight : pyval;
}.

(** [self._patient_details.items()] *)
Definition items (d : details) : list (PatientDetails * pyval) :=
  [ (PATIENT_ID, VStr (d_patient_id d));
    (NAME, VStr (d_name d));
    (AGE, d_age d);
    (HEIGHT, d_height d);
    (GENDER, VStr (d_gender d));
    (BLOOD_GROUP, VStr (d_blood_group d));
    (WEIGHT, d_weight d) ].

Record HealthAssistantFnc := {
  _patient_details : details;
  _symptoms : list string;
  _conversation_complete : bool;
}.

(** [__init__] *)
Definition init : HealthAssistantFnc :=
  {| _patient_details :=
       {| d_patient_id := ""; d_name := ""; d_age := VStr "";
          d_height := VStr ""; d_gender := ""; d_blood_group := "";
          d_weight := VStr "" |};
     _symptoms := [];
     _conversation_complete := false |}.

Definition get_patient_str (self : HealthAssistantFnc) : string :=
  fold_left
    (fun patient_str '(key, v) =>
       if truthy v
       then patient_str ++ value key ++ ": " ++ format v ++ String "010" ""
       else patient_str)
    (items (_patient_details self)) "".

(** The dictionary built from a store record, in [lookup_patient] and in
    [create_patient]. *)
Definition adopt (result : Patient) : details :=
  {| d_patient_id := patient_id result;
     d_name := name result;
     d_age := VInt (age result);
     d_height := VFloat (height result);
     d_gender := gender result;
     d_blood_group := blood_group result;
     d_weight := VFloat (weight result) |}.

Definition set_details (self : HealthAssistantFnc) (d : details) : HealthAssistantFnc :=
  {| _patient_details := d;
     _symptoms := _symptoms self;
     _conversation_complete := _conversation_complete self |}.

(** Each callable returns its result and the object afterwards. The store
    [DB] is the table [db]; only [create_patient] changes it. *)
Definition lookup_patient (fault : option exn) (db : gmap string row)
    (self : HealthAssistantFnc) (patient_id : string)
    : outcome string * HealthAssistantFnc :=
  match get_patient_by_id fault db patient_id with
  | Raise e => (Raise e, self)
  | Return None => (Return "Patient not found", self)
  | Return (Some result) =>
      let self' := set_details self (adopt result) in
      (Return ("The patient details are: " ++ get_patient_str self'), self')
  end.

Definition get_patient_details (self : HealthAssistantFnc) : string :=
  "The patient details are: " ++ get_patient_str self.

Definition create_patient (fault read_fault : option exn) (now : string)
    (draws : list N) (db : gmap string row) (self : HealthAssistantFnc)
    (name : string) (age : Z) (height : float) (gender blood_group : string)
    (weight : float)
    : option (outcome string * HealthAssistantFnc * gmap string row) :=
  match DbDriver.create_patient fault read_fault now draws db
          name age height gender blood_group weight None with
  | None => None
  | Some (Raise e, db') => Some (Raise e, self, db')
  | Some (Return None, db') => Some (Return "Failed to create patient", self, db')
  | Some (Return (Some result), db') =>
      Some (Return ("Patient created! Your patient ID is: " ++ patient_id result),
            set_details self (adopt result), db')
  end.

Definition add_symptom (self : HealthAssistantFnc) (symptom : string)
    : string * HealthAssistantFnc :=
  let symptoms := (_symptoms self ++ [symptom])%list in
  ("Symptom added: " ++ symptom ++ ". Total symptoms recorded: "
     ++ str_nat (length symptoms),
   {| _patient_details := _patient_details self;
      _symptoms := symptoms;
      _conversation_complete := _conversation_complete self |}).

(** The loop of [get_symptoms] over [enumerate(self._symptoms, 1)]: the
    accumulator is the next index and the text so far. *)
Definition get_symptoms (self : HealthAssistantFnc) : string :=
  match _symptoms self with
  | [] => "No symptoms have been recorded yet."
  | symptoms =>
      snd (fold_left
             (fun '(i, symptoms_str) symptom =>
                (S i, symptoms_str ++ str_nat i ++ ". " ++ symptom ++ String "010" ""))
             symptoms
             (1%nat, "Recorded symptoms:" ++ String "010" ""))
  end.

Definition is_consultation_complete (self : HealthAssistantFnc) : bool :=
  _conversation_complete self.

Definition has_patient (self : HealthAssistantFnc) : bool :=
  negb (String.eqb (d_patient_id (_patient_details self)) "").

Definition get_current_patient (self : HealthAssistantFnc) : outcome Patient :=
  if negb (has_patient self)
  then Raise (Exn ValueError "No patient information available")
  else
    let d := _patient_details self in
    bind (py_int (d_age d)) (fun age =>
    bind (py_float (d_height d)) (fun height =>
    bind (py_float (d_weight d)) (fun weight =>
    Return {| patient_id := d_patient_id d;
              name := d_name d;
              age := age;
              height := height;
              gender := d_gender d;
              blood_group := d_blood_group d;
              weight := weight;
              created_at := None |}))).

Definition mark_complete (self : HealthAssistantFnc) : HealthAssistantFnc :=
  {| _patient_details := _patient_details self;
     _symptoms := _symptoms self;
     _conversation_complete := true |}.

(** The body of the [try] block of [end_consultation], up to the call of
    the generator. *)
Definition try_generate (self : HealthAssistantFnc) : outcome string :=
  bind (get_current_patient self) (fun patient =>
  generate_and_save_report patient (_symptoms self)).

Definition end_consultation (self : HealthAssistantFnc)
    : string * HealthAssistantFnc :=
  if negb (has_patient self)
  then ("Cannot end consultation: No patient information available.", self)
  else
    match try_generate self with
    | Return report_path =>
        ("Consultation complete! Your diagnostic report has been generated and saved. Thank you for using our health assistant service. Report saved as: "
           ++ report_path,
         mark_complete self)
    | Raise e =>
        ("Consultation marked as complete, but there was an issue generating your report: "
           ++ str_exn e ++ ". Please contact support if needed.",
         mark_complete self)
    end.

End WithRuntime.
End Api.

(** ** agent.py: the handler of [user_speech_committed] *)

Module Agent.
Import Api Prompts.
Section WithRuntime.
Context `{PythonRuntime}.

(** What the handler does to the realtime session. *)
Inductive session_call :=
| conversation_item_create (role content : string)
| response_create.

(** The variables the handler closes over: the function context and the
    two [nonlocal] variables of [entrypoint]. *)
Record agent := {
  assistant_fnc : HealthAssistantFnc;
  conversation_phase : string;
  symptoms_collected : bool;
}.


Definition set_phase (st : agent) (phase : string) : agent :=
  {| assistant_fnc := assistant_fnc st;
     conversation_phase := phase;
     symptoms_collected := symptoms_collected st |}.

Definition completion_phrases : list string :=
  ["that's all"; "nothing else"; "done"; "complete"; "finish"; "end consultation"].

Definition affirmative_phrases : list string :=
  ["yes"; "generate"; "complete"; "done"; "finish"].

Definition find_profile (content : string) : list session_call :=
  [ conversation_item_create "system" (LOOKUP_PATIENT_MESSAGE content);
    response_create ].

(** [content] is [msg.content], the text of the utterance. (A content that
    is a list is flattened to text before the first line modelled here;
    utterances reach the handler as text.) *)
Definition handle_query (st : agent) (content : string) (phase : string)
    (symptoms_collected : bool) : agent * list session_call :=
  let '(st', item) :=
    if String.eqb phase "info_collection" && has_patient (assistant_fnc st) then
      (set_phase st "symptoms",
       conversation_item_create "system"
         (SYMPTOM_COLLECTION_MESSAGE ++ " User message: " ++ content))
    else if String.eqb phase "symptoms" then
      let user_content := lower content in
      if any_in completion_phrases user_content then
        (set_phase st "completion",
         conversation_item_create "system"
           (CONVERSATION_COMPLETION_MESSAGE ++ " User message: " ++ content))
      else
        let current_symptoms := get_symptoms (assistant_fnc st) in
        if str_in "No symptoms" current_symptoms then
          (st,
           conversation_item_create "system"
             ("Collect the patient's symptoms. User message: " ++ content))
        else
          (st,
           conversation_item_create "system"
             (SYMPTOM_FOLLOWUP_MESSAGE (_symptoms (assistant_fnc st))
                ++ " User message: " ++ content))
    else if String.eqb phase "completion" then
      let user_content := lower content in
      if any_in affirmative_phrases user_content then
        (st,
         conversation_item_create "system"
           (REPORT_GENERATION_MESSAGE
              ++ " Please call the end_consultation function to generate the report."))
      else
        (set_phase st "symptoms",
         conversation_item_create "system"
           ("Continue collecting symptoms or information. User message: " ++ content))
    else
      (st, conversation_item_create "user" content)
  in
  (st', [item; response_create]).

Definition completed_acknowledgment : string :=
  "Your consultation has been completed and your report has been generated. Thank you!".

Definition on_user_speech_committed (st : agent) (content : string)
    : agent * list session_call :=
  if is_consultation_complete (assistant_fnc st) then
    (st,
     [ conversation_item_create "assistant" completed_acknowledgment;
       response_create ])
  else if has_patient (assistant_fnc st) then
    handle_query st content (conversation_phase st) (symptoms_collected st)
  else
    (st, find_profile content).

End WithRuntime.
End Agent.

(** ** A small runtime, to run the model on concrete inputs

    Floats with an integral value (written as Python writes them, with a
    trailing [.0]), ASCII case folding, decimal literals without sign, and
    timestamps of the shape SQLite's [CURRENT_TIMESTAMP] has. *)

Module Small.

Definition lower_char (c : ascii) : ascii :=
  let n := N_of_ascii c in
  if ((65 <=? n) && (n <=? 90))%N then ascii_of_N (n + 32) else c.

Fixpoint ascii_lower (s : string) : string :=
  match s with
  | EmptyString => EmptyString
  | String c s' => String (lower_char c) (ascii_lower s')
  end.

Fixpoint digits_value (s : string) (acc : N) : N :=
  match s with
  | EmptyString => acc
  | String c s' => digits_value s' (10 * acc + (N_of_ascii c - 48))%N
  end.

Definition is_literal (s : string) : bool :=
  negb (String.eqb s "") && all_digits s.

Definition int_literal (s : string) : outcome Z :=
  if is_literal s then Return (Z.of_N (digits_value s 0))
  else Raise (Exn ValueError ("invalid literal for int() with base 10: '" ++ s ++ "'")).

Definition float_literal (s : string) : outcome Z :=
  if is_literal s then Return (Z.of_N (digits_value s 0))
  else Raise (Exn ValueError ("could not convert string to float: '" ++ s ++ "'")).

(** [YYYY-MM-DD HH:MM:SS] *)
Fixpoint has_shape (shape : list (option ascii)) (s : string) : bool :=
  match shape, s with
  | [], EmptyString => true
  | None :: shape', String c s' => is_digit c && has_shape shape' s'
  | Some sep :: shape', String c s' => Ascii.eqb sep c && has_shape shape' s'
  | _, _ => false
  end.

Definition timestamp_shape : list (option ascii) :=
  let d := @None ascii in
  let dash := Some "-"%char in
  let colon := Some ":"%char in
  [d; d; d; d; dash; d; d; dash; d; d; Some " "%char;
   d; d; colon; d; d; colon; d; d].

Definition timestamp_literal (s : string) : option string :=
  if has_shape timestamp_shape s then Some s else None.

Definition runtime : PythonRuntime :=
  {| float := Z;
     float_truthy := fun x => negb (x =? 0);
     str_float := fun x => str_Z x ++ ".0";
     int_of_float := fun x => Return x;
     float_of_int := fun z => Return z;
     int_of_str := int_literal;
     float_of_str := float_literal;
     lower := ascii_lower;
     datetime := string;
     fromisoformat := timestamp_literal |}.

End Small.

(** ** A concrete consultation, to evaluate the model *)

Module Scenario.
Import DbDriver Api Agent.
#[local] Existing Instance Small.runtime.

Definition clock : string := "2024-02-01 14:30:45".

Definition john : row :=
  {| row_name := "John Doe"; row_age := 30; row_height := 175;
     row_gender := "Male"; row_blood_group := "O+"; row_weight := 70;
     row_created_at := Some "2024-01-15 09:00:00" |}.

Definition jane : row :=
  {| row_name := "Jane Smith"; row_age := 25; row_height := 165;
     row_gender := "Female"; row_blood_group := "A-"; row_weight := 60;
     row_created_at := Some "2024-01-20 10:30:00" |}.

(** A table with two patients. *)
Definition two_patients : gmap string row :=
  <["P87654321" := jane]> (<["P12345678" := john]> ∅).

(** A generator that saves, and one whose disk is full. *)
Definition saving : Patient -> list string -> outcome string :=
  fun patient _ => Return ("reports/" ++ patient_id patient ++ "_report.txt").

Definition disk_full : Patient -> list string -> outcome string :=
  fun _ _ => Raise (Exn OSError "Failed to save report: No space left on device").

(** John is looked up and reports a headache. *)
Definition with_john : HealthAssistantFnc :=
  snd (lookup_patient None two_patients Api.init "P12345678").

Definition john_headache : HealthAssistantFnc :=
  snd (add_symptom with_john "Headache").

(** John as the store returns him. *)
Definition john_stored : Patient :=
  {| patient_id := "P12345678"; name := "John Doe"; age := 30;
     height := 175; gender := "Male"; blood_group := "O+";
     weight := 70; created_at := Some "2024-01-15 09:00:00" |}.

(** Jane as the store returns her, as the dictionary holds her, and as
    [get_current_patient] rebuilds her. *)
Definition jane_stored : Patient :=
  {| patient_id := "P87654321"; name := "Jane Smith"; age := 25;
     height := 165; gender := "Female"; blood_group := "A-";
     weight := 60; created_at := Some "2024-01-20 10:30:00" |}.

Definition jane_details : details :=
  {| d_patient_id := "P87654321"; d_name := "Jane Smith"; d_age := VInt 25;
     d_height := VFloat 165; d_gender := "Female"; d_blood_group := "A-";
     d_weight := VFloat 60 |}.

Definition jane_current : Patient :=
  {| patient_id := "P87654321"; name := "Jane Smith"; age := 25;
     height := 165; gender := "Female"; blood_group := "A-";
     weight := 60; created_at := None |}.

(** The controller in a given phase around a function context. *)
Definition in_phase (phase : string) (fnc : HealthAssistantFnc) : agent :=
  {| assistant_fnc := fnc; conversation_phase := phase;
     symptoms_collected := false |}.

End Scenario.

(** ** Vocabulary of the specification *)

Module Spec.

(** [s] has [p] as a contiguous part. *)
Definition occurs_in (p s : string) : Prop :=
  exists before after, s = before ++ p ++ after.

(** The pattern [^P\d{8}$]: the letter P, then exactly eight digits. *)
Definition id_format (s : string) : bool :=
  match s with
  | String "P" rest => Nat.eqb (String.length rest) 8 && all_digits rest
  | _ => false
  end.

(** A numbered list, one line per item: [1. first], [2. second], ... *)
Definition numbered_line (i : nat) (item : string) : string :=
  str_nat i ++ ". " ++ item ++ String "010" "".

Fixpoint numbered_from (i : nat) (items : list string) : string :=
  match items with
  | [] => ""
  | item :: rest => numbered_line i item ++ numbered_from (S i) rest
  end.

(** The external session calls the six operations in any order, one at a
    time, on the function context and the store. *)
Section Session.
Context `{PythonRuntime}.
Import DbDriver Api Agent.
Variable generate_and_save_report : Patient -> list string -> outcome string.

Inductive call :=
| call_lookup_patient (fault : option exn) (patient_id : string)
| call_create_patient (fault read_fault : option exn) (now : string) (draws : list N)
    (name : string) (age : Z) (height : float) (gender blood_group : string)
    (weight : float)
| call_get_patient_details
| call_add_symptom (symptom : string)
| call_get_symptoms
| call_end_consultation.

(** The store and the function context after a call; [None] when
    identifier generation is out of draws. *)
Definition perform (db : gmap string row) (self : HealthAssistantFnc) (c : call)
    : option (gmap string row * HealthAssistantFnc) :=
  match c with
  | call_lookup_patient fault patient_id =>
      Some (db, snd (lookup_patient fault db self patient_id))
  | call_create_patient fault read_fault now draws
      name age height gender blood_group weight =>
      match Api.create_patient fault read_fault now draws db self
              name age height gender blood_group weight with
      | None => None
      | Some (_, self', db') => Some (db', self')
      end
  | call_get_patient_details | call_get_symptoms => Some (db, self)
  | call_add_symptom symptom => Some (db, snd (add_symptom self symptom))
  | call_end_consultation =>
      Some (db, snd (end_consultation generate_and_save_report self))
  end.

Fixpoint perform_all (db : gmap string row) (self : HealthAssistantFnc)
    (calls : list call) : option (gmap string row * HealthAssistantFnc) :=
  match calls with
  | [] => Some (db, self)
  | c :: calls' =>
      match perform db self c with
      | None => None
      | Some (db', self') => perform_all db' self' calls'
      end
  end.

(** Two facts that hold at the start of a conversation over a table
    written by this store: no row has the empty identifier, and a function
    context without a patient is not complete. *)
Definition settled (db : gmap string row) (self : HealthAssistantFnc) : Prop :=
  db !! "" = None
  /\ (has_patient self = false -> _conversation_complete self = false).

(** Utterances are handled strictly one after the other; the result is the
    controller at the end and what each utterance made it do. *)
Fixpoint hear (st : agent) (utterances : list string)
    : agent * list (list session_call) :=
  match utterances with
  | [] => (st, [])
  | content :: rest =>
      let '(st', calls) := on_user_speech_committed st content in
      let '(st'', later) := hear st' rest in
      (st'', calls :: later)
  end.

End Session.

End Spec.
Import Spec.

(** ** Further concrete cases *)

Module Cases.
Import DbDriver Api Agent Scenario.
#[local] Existing Instance Small.runtime.

Definition bob : row :=
  {| row_name := "Bob Wilson"; row_age := 35; row_height := 180;
     row_gender := "Male"; row_blood_group := "AB-"; row_weight := 80;
     row_created_at := Some clock |}.

(** Alice and Carol are created one after the other, with generated
    identifiers. *)
Definition alice_row : row :=
  {| row_name := "Alice Johnson"; row_age := 28; row_height := 170;
     row_gender := "Female"; row_blood_group := "B+"; row_weight := 65;
     row_created_at := Some clock |}.

Definition alice : Patient :=
  {| patient_id := "P10000007"; name := "Alice Johnson"; age := 28;
     height := 170; gender := "Female"; blood_group := "B+"; weight := 65;
     created_at := Some clock |}.

Definition with_alice : gmap string row := <["P10000007" := alice_row]> two_patients.

Definition carol_row : row :=
  {| row_name := "Carol Brown"; row_age := 40; row_height := 175;
     row_gender := "Female"; row_blood_group := "O-"; row_weight := 75;
     row_created_at := Some clock |}.

Definition carol : Patient :=
  {| patient_id := "P10000008"; name := "Carol Brown"; age := 40;
     height := 175; gender := "Female"; blood_group := "O-"; weight := 75;
     created_at := Some clock |}.

Definition with_carol : gmap string row := <["P10000008" := carol_row]> with_alice.

(** The error of a database file that is locked. *)
Definition locked : exn := Exn OperationalError "database is locked".

(** John's consultation has ended; then Jane is looked up and coughs. *)
Definition john_done : HealthAssistantFnc :=
  snd (end_consultation saving john_headache).

Definition later_calls : list call :=
  [call_lookup_patient None "P87654321"; call_add_symptom "Cough"].

Definition jane_cough : HealthAssistantFnc :=
  snd (add_symptom (snd (lookup_patient None two_patients john_done "P87654321"))
         "Cough").

(** John denies a fever, in words that the handler looks for. *)
Definition john_no_fever : HealthAssistantFnc :=
  snd (add_symptom with_john "No symptoms of fever").

End Cases.

(** * Properties *)

(** ** Strings *)

Section Strings.

Lemma append_nil_r (s : string) : s ++ "" = s.
Proof. induction s as [|c s IH]; simpl; [reflexivity | now rewrite IH]. Qed.

Lemma append_assoc (a b c : string) : (a ++ b) ++ c = a ++ b ++ c.
Proof. induction a as [|x a IH]; simpl; [reflexivity | now rewrite IH]. Qed.

Lemma length_append (a b : string) :
  String.length (a ++ b) = (String.length a + String.length b)%nat.
Proof. induction a as [|x a IH]; simpl; [reflexivity | now rewrite IH]. Qed.

Lemma all_digits_append (a b : string) :
  all_digits (a ++ b) = all_digits a && all_digits b.
Proof.
  induction a as [|x a IH]; simpl; [reflexivity |].
  now rewrite IH, andb_assoc.
Qed.

Lemma startswith_spec (p s : string) :
  startswith p s = true <-> exists after, s = p ++ after.
Proof.
  revert s. induction p as [|a p IH]; intros s; simpl.
  - split; [intros _; now exists s | reflexivity].
  - destruct s as [|b s].
    + split; [discriminate | intros [after Hs]; discriminate].
    + rewrite andb_true_iff, IH. split.
      * intros [Hab [after ->]]. apply Ascii.eqb_eq in Hab. subst b.
        now exists after.
      * intros [after Hs]. injection Hs as -> ->.
        split; [apply Ascii.eqb_refl | now exists after].
Qed.

(** The substring test decides [occurs_in]. *)
Lemma str_in_spec (p s : string) : str_in p s = true <-> occurs_in p s.
Proof.
  unfold occurs_in. induction s as [|c s IH].
  - simpl. rewrite orb_false_r, startswith_spec. split.
    + intros [after Hs]. now exists "", after.
    + intros [before [after Hs]]. destruct before; [now exists after |].
      discriminate.
  - cbn [str_in]. rewrite orb_true_iff, startswith_spec, IH. split.
    + intros [[after Hs] | [before [after Hs]]].
      * now exists "", after.
      * exists (String c before), after. simpl. now rewrite Hs.
    + intros [before [after Hs]]. destruct before as [|x before].
      * left. now exists after.
      * right. simpl in Hs. injection Hs as _ Hs. now exists before, after.
Qed.

Lemma any_in_spec (phrases : list string) (s : string) :
  any_in phrases s = true <-> exists p, In p phrases /\ occurs_in p s.
Proof.
  unfold any_in. rewrite existsb_exists.
  split; intros [p [Hin Hp]]; exists p; (split; [exact Hin |]);
    now apply str_in_spec.
Qed.

Lemma any_in_false (phrases : list string) (s : string) :
  any_in phrases s = false <-> forall p, In p phrases -> ~ occurs_in p s.
Proof.
  rewrite <- not_true_iff_false, any_in_spec. split.
  - intros Hno p Hin Hp. apply Hno. now exists p.
  - intros Hno [p [Hin Hp]]. exact (Hno p Hin Hp).
Qed.

End Strings.

(** ** Decimal rendering *)

Section Decimal.

Lemma digit_char_is_digit (d : N) : (d < 10)%N -> is_digit (digit_char d) = true.
Proof.
  intros Hd. unfold is_digit, digit_char.
  rewrite N_ascii_embedding by lia.
  apply andb_true_intro. split; apply N.leb_le; lia.
Qed.

(** A number with exactly [S k] decimal digits is rendered as [S k] digit
    characters, in front of the accumulator, whenever the fuel suffices. *)
Lemma dec_digits_shape (k : nat) :
  forall (fuel : nat) (n : N) (acc : string),
    (k < fuel)%nat ->
    (k = 0%nat \/ 10 ^ N.of_nat k <= n)%N ->
    (n < 10 ^ N.of_nat (S k))%N ->
    exists ds, dec_digits fuel n acc = ds ++ acc
               /\ String.length ds = S k /\ all_digits ds = true.
Proof.
  induction k as [|k IH]; intros fuel n acc Hfuel Hlo Hhi.
  - destruct fuel as [|fuel]; [lia |].
    change (10 ^ N.of_nat 1)%N with 10%N in Hhi.
    cbn [dec_digits]. rewrite (N.div_small n 10) by exact Hhi.
    exists (String (digit_char (n mod 10)) ""). cbn.
    rewrite digit_char_is_digit by (apply N.mod_lt; lia). auto.
  - destruct fuel as [|fuel]; [lia |].
    destruct Hlo as [Hk | Hlo]; [discriminate |].
    assert (E1 : (10 ^ N.of_nat (S k) = 10 * 10 ^ N.of_nat k)%N)
      by now rewrite Nat2N.inj_succ, N.pow_succ_r'.
    assert (E2 : (10 ^ N.of_nat (S (S k)) = 10 * 10 ^ N.of_nat (S k))%N)
      by now rewrite (Nat2N.inj_succ (S k)), N.pow_succ_r'.
    assert (H10 : (1 <= 10 ^ N.of_nat k)%N).
    { pose proof (N.pow_nonzero 10 (N.of_nat k)). lia. }
    assert (Hq : (n / 10 <> 0)%N).
    { intros Hq. apply N.div_small_iff in Hq; lia. }
    cbn [dec_digits]. apply N.eqb_neq in Hq. rewrite Hq.
    destruct (IH fuel (n / 10)%N (String (digit_char (n mod 10)) acc))
      as [ds [Heq [Hlen Hdig]]].
    + lia.
    + right. apply N.div_le_lower_bound; lia.
    + apply N.Div0.div_lt_upper_bound; lia.
    + exists (ds ++ String (digit_char (n mod 10)) "").
      rewrite Heq, append_assoc, length_append, all_digits_append, Hlen, Hdig.
      cbn. rewrite digit_char_is_digit by (apply N.mod_lt; lia).
      repeat split. lia.
Qed.

(** Eight-digit numbers are written with eight digit characters. *)
Lemma str_N_eight_digits (n : N) :
  (10000000 <= n <= 99999999)%N ->
  String.length (str_N n) = 8%nat /\ all_digits (str_N n) = true.
Proof.
  intros [Hlo Hhi]. unfold str_N.
  assert (Hlog : (23 <= N.log2 n)%N).
  { change 23%N with (N.log2 (2 ^ 23)). apply N.log2_le_mono.
    change (2 ^ 23)%N with 8388608%N. lia. }
  destruct (dec_digits_shape 7 (S (N.to_nat (N.log2 n))) n "")
    as [ds [Heq [Hlen Hdig]]].
  - lia.
  - right. change (10 ^ N.of_nat 7)%N with 10000000%N. exact Hlo.
  - change (10 ^ N.of_nat 8)%N with 100000000%N. lia.
  - rewrite Heq, append_nil_r. auto.
Qed.

Lemma digit_char_value (d : N) : (d < 10)%N -> (N_of_ascii (digit_char d) - 48 = d)%N.
Proof.
  intros Hd. unfold digit_char. rewrite N_ascii_embedding by lia. lia.
Qed.

Lemma digits_value_append (a b : string) (acc : N) :
  Small.digits_value (a ++ b) acc = Small.digits_value b (Small.digits_value a acc).
Proof.
  revert acc. induction a as [|c a IH]; intros acc; cbn [append Small.digits_value];
    [reflexivity | apply IH].
Qed.

(** With enough fuel the digits written are those of [n]: read back after
    any prefix value [a], they give [a] shifted by their number, plus [n]. *)
Lemma dec_digits_value (fuel : nat) :
  forall (n : N) (acc : string),
    (n < 10 ^ N.of_nat fuel)%N ->
    exists ds, dec_digits fuel n acc = ds ++ acc
               /\ all_digits ds = true
               /\ forall a, (Small.digits_value ds a
                             = a * 10 ^ N.of_nat (String.length ds) + n)%N.
Proof.
  induction fuel as [|fuel IH]; intros n acc Hn.
  - exists "". cbn in *. repeat split. intros a. lia.
  - assert (E : (10 ^ N.of_nat (S fuel) = 10 * 10 ^ N.of_nat fuel)%N)
      by now rewrite Nat2N.inj_succ, N.pow_succ_r'.
    assert (Hm : (n mod 10 < 10)%N) by (apply N.mod_lt; lia).
    pose proof (N.div_mod n 10 ltac:(lia)) as Hdm.
    cbn [dec_digits]. destruct (N.eqb_spec (n / 10) 0) as [Hq | Hq].
    + exists (String (digit_char (n mod 10)) ""). cbn.
      rewrite digit_char_is_digit by exact Hm. repeat split.
      intros a. rewrite digit_char_value by exact Hm. lia.
    + destruct (IH (n / 10)%N (String (digit_char (n mod 10)) acc))
        as [ds [Heq [Hdig Hval]]].
      { apply N.Div0.div_lt_upper_bound. lia. }
      exists (ds ++ String (digit_char (n mod 10)) "").
      rewrite Heq, append_assoc, all_digits_append, Hdig. cbn [append all_digits].
      rewrite digit_char_is_digit by exact Hm. repeat split.
      intros a. rewrite digits_value_append, Hval, length_append.
      cbn [Small.digits_value String.length].
      rewrite digit_char_value by exact Hm.
      replace (N.of_nat (String.length ds + 1)) with (N.succ (N.of_nat (String.length ds)))
        by lia.
      rewrite N.pow_succ_r'. lia.
Qed.

(** [str_N] writes a number in decimal: digits only, and reading them back
    gives the number. *)
Lemma str_N_decimal (n : N) :
  all_digits (str_N n) = true /\ Small.digits_value (str_N n) 0%N = n.
Proof.
  unfold str_N.
  destruct (dec_digits_value (S (N.to_nat (N.log2 n))) n "") as [ds [Heq [Hdig Hval]]].
  - replace (N.of_nat (S (N.to_nat (N.log2 n)))) with (N.succ (N.log2 n)) by lia.
    destruct (N.eq_dec n 0%N) as [-> | Hpos]; [reflexivity |].
    destruct (N.log2_spec n ltac:(lia)) as [_ Hlt].
    eapply N.lt_le_trans; [exact Hlt |].
    apply N.pow_le_mono_l. lia.
  - rewrite Heq, append_nil_r. split; [exact Hdig |]. rewrite Hval. lia.
Qed.

End Decimal.

(** ** The patient record store *)

Section StoreProperties.
Context `{PythonRuntime}.
Import DbDriver.

Lemma randint_range (lo hi r : N) :
  (lo <= hi)%N -> (lo <= randint lo hi r <= hi)%N.
Proof.
  intros Hle. unfold randint.
  assert (Hm : (r mod (hi - lo + 1) < hi - lo + 1)%N) by (apply N.mod_lt; lia).
  revert Hm. generalize (r mod (hi - lo + 1))%N. intros m Hm. lia.
Qed.

Lemma candidate_id_format (r : N) : id_format (candidate_id r) = true.
Proof.
  unfold candidate_id, id_format.
  destruct (str_N_eight_digits (randint 10000000 99999999 r)) as [Hlen Hdig].
  - apply randint_range. lia.
  - now rewrite Hlen, Hdig.
Qed.


Lemma get_patient_by_id_present (db : gmap string row) (pid : string) (r : row) :
  db !! pid = Some r ->
  get_patient_by_id None db pid =
    Return (Some {| patient_id := pid; name := row_name r; age := row_age r;
                    height := row_height r; gender := row_gender r;
                    blood_group := row_blood_group r; weight := row_weight r;
                    created_at := parse_created_at (row_created_at r) |}).
Proof. intros Hin. unfold get_patient_by_id, select_by_id. now rewrite Hin. Qed.

(** Whatever the loop returns is well-formed and not in the table. *)
Lemma generate_sound (fault : option exn) (db : gmap string row) (draws : list N)
    (pid : string) :
  _generate_patient_id fault db draws = Some (Return pid) ->
  id_format pid = true /\ db !! pid = None.
Proof.
  induction draws as [|r draws IH]; cbn [_generate_patient_id]; [discriminate |].
  unfold get_patient_by_id, select_by_id.
  destruct fault as [e|]; [discriminate |].
  destruct (db !! candidate_id r) eqn:Hlook.
  - exact IH.
  - intros [= <-]. split; [apply candidate_id_format | exact Hlook].
Qed.

(** The loop ends at the first draw whose identifier is free. *)
Lemma generate_returns (db : gmap string row) (draws : list N) :
  (exists r, In r draws /\ db !! candidate_id r = None) ->
  exists pid, _generate_patient_id None db draws = Some (Return pid).
Proof.
  induction draws as [|r draws IH]; intros [r0 [Hin Hfree]]; [destruct Hin |].
  cbn [_generate_patient_id]. unfold get_patient_by_id, select_by_id.
  destruct (db !! candidate_id r) eqn:Hlook.
  - apply IH. destruct Hin as [-> | Hin]; [congruence | now exists r0].
  - now exists (candidate_id r).
Qed.

(** C9. Every identifier that identifier generation returns is the letter
    P followed by exactly eight decimal digits and is absent from the
    table at that moment; and generation does return one as soon as some
    draw yields an identifier that is free. *)
Theorem generated_id_format_and_absent
    (fault : option exn) (db : gmap string row) (draws : list N) :
  (forall pid,
      _generate_patient_id fault db draws = Some (Return pid) ->
      id_format pid = true /\ db !! pid = None)
  /\ ((exists r, In r draws /\ db !! candidate_id r = None) ->
      exists pid, _generate_patient_id None db draws = Some (Return pid)).
Proof.
  split.
  - intros pid. apply generate_sound.
  - apply generate_returns.
Qed.

Lemma id_missing_supplied (pid : string) :
  pid <> "" -> id_missing (Some pid) = false.
Proof. destruct pid; [congruence | reflexivity]. Qed.

(** C4. When the identifier is already a key of the table, the insertion
    that every creation goes through raises the duplicate-identifier error
    ([sqlite3.IntegrityError]); creation with such a supplied identifier
    raises it and leaves the table as it was; and whatever the engine
    does, no record is written. *)
Theorem create_existing_id_fails
    (read_fault : option exn)
    (now : string) (draws : list N) (db : gmap string row) (pid : string) (r : row)
    (nm : string) (ag : Z) (ht : float) (gd bg : string) (wt : float) :
  db !! pid = Some r ->
  pid <> "" ->
  insert_patient now db pid nm ag ht gd bg wt = Raise duplicate_error
  /\ create_patient None read_fault now draws db nm ag ht gd bg wt (Some pid)
     = Some (Raise duplicate_error, db)
  /\ forall fault, exists e,
       create_patient fault read_fault now draws db nm ag ht gd bg wt (Some pid)
       = Some (Raise e, db).
Proof.
  intros Hin Hne.
  assert (Hins : insert_patient now db pid nm ag ht gd bg wt = Raise duplicate_error).
  { unfold insert_patient. now rewrite Hin. }
  split; [exact Hins |].
  unfold create_patient. rewrite (id_missing_supplied pid Hne). cbn.
  rewrite Hins. split; [reflexivity |].
  intros [e|]; [now exists e | now exists duplicate_error].
Qed.

(** Inserting under a free identifier and reading it back. *)
Lemma insert_then_get
    (now : string) (db : gmap string row) (pid : string)
    (nm : string) (ag : Z) (ht : float) (gd bg : string) (wt : float) :
  db !! pid = None ->
  exists db',
    insert_patient now db pid nm ag ht gd bg wt = Return db'
    /\ get_patient_by_id None db' pid =
       Return (Some {| patient_id := pid; name := nm; age := ag; height := ht;
                       gender := gd; blood_group := bg; weight := wt;
                       created_at := parse_created_at (Some now) |}).
Proof.
  intros Hfree. unfold insert_patient. rewrite Hfree.
  eexists. split; [reflexivity |].
  erewrite get_patient_by_id_present by apply lookup_insert_eq.
  reflexivity.
Qed.

(** C6. With a working store, a timestamp that parses, and an identifier
    that is free (supplied, or generated from a draw that is free),
    creation returns a record; reading the table by that record's
    identifier yields the same record, which carries the values given and
    a creation time. *)
Theorem create_then_get_by_id
    (now : string) (draws : list N) (db : gmap string row)
    (nm : string) (ag : Z) (ht : float) (gd bg : string) (wt : float)
    (supplied : option string) (t : datetime) :
  parse_created_at (Some now) = Some t ->
  (if id_missing supplied
   then exists r, In r draws /\ db !! candidate_id r = None
   else db !! default "" supplied = None) ->
  exists p db',
    create_patient None None now draws db nm ag ht gd bg wt supplied
      = Some (Return (Some p), db')
    /\ get_patient_by_id None db' (patient_id p) = Return (Some p)
    /\ name p = nm /\ age p = ag /\ height p = ht /\ gender p = gd
    /\ blood_group p = bg /\ weight p = wt
    /\ created_at p = Some t.
Proof.
  intros Hts Hid. unfold create_patient.
  assert (Hpid : exists pid,
             (if id_missing supplied then _generate_patient_id None db draws
              else Some (Return (default "" supplied))) = Some (Return pid)
             /\ db !! pid = None).
  { destruct (id_missing supplied).
    - destruct (generate_returns db draws Hid) as [pid Hgen].
      exists pid. split; [exact Hgen |]. now apply (generate_sound None db draws).
    - now exists (default "" supplied). }
  destruct Hpid as [pid [-> Hfree]].
  destruct (insert_then_get now db pid nm ag ht gd bg wt Hfree) as [db' [-> Hget]].
  do 2 eexists. split; [rewrite Hget; reflexivity |].
  split; [exact Hget |]. repeat split. exact Hts.
Qed.

(** Creation with a generated identifier either raises and writes nothing,
    or inserts one row under a well-formed identifier that was free; it
    then returns the record, unless reading the row back raises. *)
Lemma create_generated_cases
    (fault read_fault : option exn) (now : string) (draws : list N)
    (db db' : gmap string row)
    (nm : string) (ag : Z) (ht : float) (gd bg : string) (wt : float)
    (res : outcome (option Patient)) :
  create_patient fault read_fault now draws db nm ag ht gd bg wt None
    = Some (res, db') ->
  (db' = db /\ exists e, res = Raise e)
  \/ (exists pid,
         id_format pid = true /\ db !! pid = None
         /\ (forall k, k <> pid -> db' !! k = db !! k)
         /\ ((exists p, patient_id p = pid /\ res = Return (Some p))
             \/ exists e, res = Raise e)).
Proof.
  unfold create_patient. cbn [id_missing].
  destruct (_generate_patient_id fault db draws) as [[pid|e]|] eqn:Hgen;
    [| intros [= <- <-]; left; split; [reflexivity | now exists e] | discriminate].
  destruct (generate_sound fault db draws pid Hgen) as [Hfmt Hfree].
  destruct fault as [e|];
    [intros [= <- <-]; left; split; [reflexivity | now exists e] |].
  destruct (insert_then_get now db pid nm ag ht gd bg wt Hfree) as [db1 [Hins Hget]].
  rewrite Hins. intros [= <- <-]. right. exists pid.
  split; [exact Hfmt |]. split; [exact Hfree |]. split.
  - intros k Hk. unfold insert_patient in Hins. rewrite Hfree in Hins.
    injection Hins as <-. now apply lookup_insert_ne.
  - destruct read_fault as [e|].
    + right. now exists e.
    + left. rewrite Hget. eexists. split; [| reflexivity]. reflexivity.
Qed.

End StoreProperties.

(** ** The callable operations *)

Section ApiProperties.
Context `{PythonRuntime}.
Import DbDriver Api.
Variable generate_and_save_report : Patient -> list string -> outcome string.

Abbreviation end_consultation := (Api.end_consultation generate_and_save_report).
Abbreviation try_generate := (Api.try_generate generate_and_save_report).

Lemma has_patient_adopt (self : HealthAssistantFnc) (p : Patient) :
  patient_id p <> "" -> has_patient (set_details self (adopt p)) = true.
Proof.
  intros Hid. unfold has_patient. cbn.
  now destruct (String.eqb_spec (patient_id p) "").
Qed.

Lemma id_format_nonempty (pid : string) : id_format pid = true -> pid <> "".
Proof. destruct pid; [discriminate | discriminate]. Qed.

(** Every call keeps [settled]. *)
Lemma perform_settled (db db' : gmap string row) (self self' : HealthAssistantFnc)
    (c : call) :
  settled db self ->
  perform generate_and_save_report db self c = Some (db', self') ->
  settled db' self'.
Proof.
  intros [Hkey Hinv] Hstep.
  destruct c as [fault pid | fault read_fault now draws nm ag ht gd bg wt
                 | | symptom | |];
    cbn [perform] in Hstep.
  - injection Hstep as <- <-. split; [exact Hkey |].
    unfold lookup_patient, get_patient_by_id, select_by_id.
    destruct fault as [e|]; [exact Hinv |].
    destruct (db !! pid) as [r|] eqn:Hlook; [| exact Hinv].
    cbn [snd]. rewrite has_patient_adopt; [discriminate |].
    cbn. intros ->. congruence.
  - unfold Api.create_patient in Hstep.
    destruct (DbDriver.create_patient fault read_fault now draws db
                nm ag ht gd bg wt None)
      as [[res db1]|] eqn:Hcreate; [| discriminate].
    destruct (create_generated_cases _ _ _ _ _ _ _ _ _ _ _ _ _ Hcreate)
      as [[-> [e ->]] | [pid [Hfmt [Hfree [Hother Hres]]]]].
    + injection Hstep as <- <-. now split.
    + pose proof (id_format_nonempty pid Hfmt) as Hne.
      assert (Hkey1 : db1 !! "" = None) by (rewrite Hother by congruence; exact Hkey).
      destruct Hres as [[p [Hid ->]] | [e ->]]; injection Hstep as <- <-.
      * split; [exact Hkey1 |].
        rewrite has_patient_adopt by congruence. discriminate.
      * now split.
  - injection Hstep as <- <-. now split.
  - injection Hstep as <- <-. now split.
  - injection Hstep as <- <-. now split.
  - injection Hstep as <- <-. split; [exact Hkey |].
    unfold Api.end_consultation. destruct (has_patient self) eqn:Hp; cbn [negb].
    + destruct (Api.try_generate generate_and_save_report self); cbn [snd];
        unfold has_patient in *; cbn; congruence.
    + cbn [snd]. intros _. now apply Hinv.
Qed.

Lemma perform_all_settled (calls : list call) :
  forall (db db' : gmap string row) (self self' : HealthAssistantFnc),
    settled db self ->
    perform_all generate_and_save_report db self calls = Some (db', self') ->
    settled db' self'.
Proof.
  induction calls as [|c calls IH]; intros db db' self self' Hs Hrun;
    cbn [perform_all] in Hrun.
  - now injection Hrun as <- <-.
  - destruct (perform generate_and_save_report db self c) as [[db1 self1]|] eqn:Hstep;
      [| discriminate].
    exact (IH _ _ _ _ (perform_settled _ _ _ _ _ Hs Hstep) Hrun).
Qed.

(** With the details of a record under a non-empty identifier, the
    patient is adopted and [get_current_patient] rebuilds the record,
    without its creation time: the conversions of age, height and weight
    do not fail on the numbers that adoption stores. *)
Lemma get_current_patient_of_details (self : HealthAssistantFnc) (p : Patient) :
  _patient_details self = adopt p ->
  patient_id p <> "" ->
  has_patient self = true
  /\ get_current_patient self
     = Return {| patient_id := patient_id p; name := name p; age := age p;
                 height := height p; gender := gender p;
                 blood_group := blood_group p; weight := weight p;
                 created_at := None |}.
Proof.
  intros Hdetails Hid.
  assert (Hp : has_patient self = true).
  { unfold has_patient. rewrite Hdetails. cbn [adopt d_patient_id].
    now destruct (String.eqb_spec (patient_id p) ""). }
  split; [exact Hp |].
  unfold get_current_patient. rewrite Hp, Hdetails. reflexivity.
Qed.

(** The details are the initial ones or those of a record: every call
    keeps that. *)
Lemma perform_keeps_adopted (db db' : gmap string row) (self self' : HealthAssistantFnc)
    (c : call) :
  (_patient_details self = _patient_details Api.init
   \/ exists p, _patient_details self = adopt p) ->
  perform generate_and_save_report db self c = Some (db', self') ->
  _patient_details self' = _patient_details Api.init
  \/ exists p, _patient_details self' = adopt p.
Proof.
  intros Hinv Hstep.
  destruct c as [fault pid | fault read_fault now draws nm ag ht gd bg wt
                 | | symptom | |];
    cbn [perform] in Hstep.
  - injection Hstep as <- <-. unfold lookup_patient.
    destruct (get_patient_by_id fault db pid) as [[p|]|e]; cbn [snd];
      [right; now exists p | exact Hinv | exact Hinv].
  - unfold Api.create_patient in Hstep.
    destruct (DbDriver.create_patient fault read_fault now draws db
                nm ag ht gd bg wt None)
      as [[[[p|]|e] db1]|]; [| | | discriminate]; injection Hstep as <- <-;
      [right; now exists p | exact Hinv | exact Hinv].
  - now injection Hstep as <- <-.
  - now injection Hstep as <- <-.
  - now injection Hstep as <- <-.
  - injection Hstep as <- <-. unfold Api.end_consultation.
    destruct (negb (has_patient self)); [exact Hinv |].
    destruct try_generate; exact Hinv.
Qed.

Lemma perform_all_keeps_adopted (calls : list call) :
  forall (db db' : gmap string row) (self self' : HealthAssistantFnc),
    (_patient_details self = _patient_details Api.init
     \/ exists p, _patient_details self = adopt p) ->
    perform_all generate_and_save_report db self calls = Some (db', self') ->
    _patient_details self' = _patient_details Api.init
    \/ exists p, _patient_details self' = adopt p.
Proof.
  induction calls as [|c calls IH]; intros db db' self self' Hinv Hrun;
    cbn [perform_all] in Hrun.
  - now injection Hrun as <- <-.
  - destruct (perform generate_and_save_report db self c) as [[db1 self1]|] eqn:Hstep;
      [| discriminate].
    exact (IH _ _ _ _ (perform_keeps_adopted _ _ _ _ _ Hinv Hstep) Hrun).
Qed.

(** C1. Without an adopted patient, [end_consultation] returns the
    no-patient message and changes nothing, so a consultation that was not
    complete stays so; and it was not complete, in any function context
    that calls of the operations have produced from the initial one, over
    a table without the empty identifier. With an adopted patient the
    consultation is marked complete whatever happens in the [try] block;
    when the generator returns a path the confirmation names it, and when
    it raises (or the patient cannot be rebuilt) the message embeds the
    text of the error. An adopted patient does reach the generator: with
    the details of a record under a non-empty identifier, the record is
    rebuilt, the generator is called with it and the symptoms, and its
    result alone decides between the confirmation and the message of the
    failure; and in every function context that calls of the operations
    have produced from the initial one, a patient that is adopted has the
    details of such a record. *)
Theorem end_consultation_completes (self : HealthAssistantFnc) :
  (has_patient self = false ->
   end_consultation self
     = ("Cannot end consultation: No patient information available.", self)
   /\ (_conversation_complete self = false ->
       _conversation_complete (snd (end_consultation self)) = false))
  /\ (forall db0 calls db,
         db0 !! "" = None ->
         perform_all generate_and_save_report db0 Api.init calls = Some (db, self) ->
         has_patient self = false ->
         _conversation_complete (snd (end_consultation self)) = false)
  /\ (has_patient self = true ->
      _conversation_complete (snd (end_consultation self)) = true
      /\ (forall patient path,
             get_current_patient self = Return patient ->
             generate_and_save_report patient (_symptoms self) = Return path ->
             fst (end_consultation self)
             = "Consultation complete! Your diagnostic report has been generated and saved. Thank you for using our health assistant service. Report saved as: "
               ++ path)
      /\ (forall patient e,
             get_current_patient self = Return patient ->
             generate_and_save_report patient (_symptoms self) = Raise e ->
             fst (end_consultation self)
             = "Consultation marked as complete, but there was an issue generating your report: "
               ++ str_exn e ++ ". Please contact support if needed.")
      /\ (forall e,
             get_current_patient self = Raise e ->
             fst (end_consultation self)
             = "Consultation marked as complete, but there was an issue generating your report: "
               ++ str_exn e ++ ". Please contact support if needed."))
  /\ (forall p,
         _patient_details self = adopt p ->
         patient_id p <> "" ->
         has_patient self = true
         /\ end_consultation self
            = (match generate_and_save_report
                       {| patient_id := patient_id p; name := name p; age := age p;
                          height := height p; gender := gender p;
                          blood_group := blood_group p; weight := weight p;
                          created_at := None |}
                       (_symptoms self) with
               | Return path =>
                   "Consultation complete! Your diagnostic report has been generated and saved. Thank you for using our health assistant service. Report saved as: "
                     ++ path
               | Raise e =>
                   "Consultation marked as complete, but there was an issue generating your report: "
                     ++ str_exn e ++ ". Please contact support if needed."
               end,
               {| _patient_details := _patient_details self;
                  _symptoms := _symptoms self;
                  _conversation_complete := true |}))
  /\ (forall db0 calls db,
         perform_all generate_and_save_report db0 Api.init calls = Some (db, self) ->
         has_patient self = true ->
         exists p, _patient_details self = adopt p /\ patient_id p <> "").
Proof.
  assert (Hnone : has_patient self = false ->
                  end_consultation self
                  = ("Cannot end consultation: No patient information available.", self)).
  { intros Hp. unfold Api.end_consultation. now rewrite Hp. }
  split; [| split; [| split; [| split]]].
  - intros Hp. split; [now apply Hnone |]. now rewrite (Hnone Hp).
  - intros db0 calls db Hkey Hrun Hp. rewrite (Hnone Hp). cbn [snd].
    assert (Hstart : settled db0 Api.init) by (split; [exact Hkey | reflexivity]).
    destruct (perform_all_settled calls _ _ _ _ Hstart Hrun) as [_ Hinv].
    now apply Hinv.
  - intros Hp. unfold Api.end_consultation. rewrite Hp. cbn [negb].
    split; [destruct try_generate; reflexivity |].
    unfold Api.try_generate.
    split; [| split].
    + intros patient path -> Hgen. cbn [bind]. now rewrite Hgen.
    + intros patient e -> Hgen. cbn [bind]. now rewrite Hgen.
    + intros e ->. reflexivity.
  - intros p Hdetails Hid.
    destruct (get_current_patient_of_details self p Hdetails Hid) as [Hp Hcur].
    split; [exact Hp |].
    unfold Api.end_consultation, Api.try_generate. rewrite Hp, Hcur. cbn [negb bind].
    destruct generate_and_save_report; reflexivity.
  - intros db0 calls db Hrun Hp.
    destruct (perform_all_keeps_adopted calls db0 db Api.init self
                (or_introl eq_refl) Hrun) as [Hinit | [p Hdetails]].
    + unfold has_patient in Hp. rewrite Hinit in Hp. discriminate.
    + exists p. split; [exact Hdetails |].
      unfold has_patient in Hp. rewrite Hdetails in Hp. cbn [adopt d_patient_id] in Hp.
      intros Hempty. rewrite Hempty in Hp. discriminate.
Qed.

(** The store fault of C2: an error of the store leaves [create_patient]
    and [lookup_patient] as the exception itself, not as a returned
    message; the object is left as it was. *)
Theorem store_fault_escapes
    (e : exn) (read_fault : option exn) (now : string) (r : N) (draws : list N) (db : gmap string row)
    (self : HealthAssistantFnc)
    (nm : string) (ag : Z) (ht : float) (gd bg : string) (wt : float)
    (pid : string) :
  Api.create_patient (Some e) read_fault now (r :: draws) db self nm ag ht gd bg wt
    = Some (Raise e, self, db)
  /\ lookup_patient (Some e) db self pid = (Raise e, self).
Proof. split; reflexivity. Qed.

(** The part of C2 that holds: a result [None] of the store is reported
    as the failure message, with no patient adopted. *)
Lemma create_patient_none_reported
    (fault read_fault : option exn) (now : string) (draws : list N) (db db' : gmap string row)
    (self : HealthAssistantFnc)
    (nm : string) (ag : Z) (ht : float) (gd bg : string) (wt : float) :
  DbDriver.create_patient fault read_fault now draws db nm ag ht gd bg wt None
    = Some (Return None, db') ->
  Api.create_patient fault read_fault now draws db self nm ag ht gd bg wt
    = Some (Return "Failed to create patient", self, db').
Proof. intros Hdb. unfold Api.create_patient. now rewrite Hdb. Qed.

(** The loop of [get_symptoms], from any index and any text so far. *)
Lemma get_symptoms_loop (symptoms : list string) :
  forall (i : nat) (text : string),
    snd (fold_left
           (fun '(i, symptoms_str) symptom =>
              (S i, symptoms_str ++ str_nat i ++ ". " ++ symptom ++ String "010" ""))
           symptoms (i, text))
    = text ++ numbered_from i symptoms.
Proof.
  induction symptoms as [|s symptoms IH]; intros i text; cbn [fold_left numbered_from].
  - cbn. now rewrite append_nil_r.
  - rewrite IH. unfold numbered_line. now rewrite !append_assoc.
Qed.

(** C3, as the code has it. Without symptoms [get_symptoms] returns the
    sentence [No symptoms have been recorded yet.]; otherwise the line
    [Recorded symptoms:] followed by the symptoms as a numbered list, from
    1, in insertion order. *)
Theorem get_symptoms_renders (self : HealthAssistantFnc) :
  get_symptoms self =
    match _symptoms self with
    | [] => "No symptoms have been recorded yet."
    | symptoms => "Recorded symptoms:" ++ String "010" (numbered_from 1 symptoms)
    end.
Proof.
  unfold get_symptoms. destruct (_symptoms self) as [|s symptoms]; [reflexivity |].
  rewrite get_symptoms_loop. now rewrite append_assoc.
Qed.

(** The numbered list keeps every item at its place: the item after [n]
    others is on the line numbered [n] more than the first. *)
Lemma numbered_from_app (i : nat) (front : list string) (item : string) (back : list string) :
  numbered_from i (front ++ item :: back)%list
  = numbered_from i front
    ++ numbered_line (i + length front) item
    ++ numbered_from (S (i + length front)) back.
Proof.
  revert i. induction front as [|x front IH]; intros i; cbn [numbered_from app length].
  - now rewrite Nat.add_0_r.
  - rewrite IH, append_assoc. now rewrite !Nat.add_succ_r.
Qed.


(** What [get_current_patient] builds from the details of an adopted
    record: the record itself, without its creation time. *)
Lemma get_current_patient_adopted (self : HealthAssistantFnc) (p : Patient) :
  patient_id p <> "" ->
  get_current_patient (set_details self (adopt p))
  = Return {| patient_id := patient_id p; name := name p; age := age p;
              height := height p; gender := gender p;
              blood_group := blood_group p; weight := weight p;
              created_at := None |}.
Proof.
  intros Hid. unfold get_current_patient, has_patient. cbn.
  destruct (String.eqb_spec (patient_id p) ""); [contradiction | reflexivity].
Qed.

(** C10. Adopting a patient, by a successful [lookup_patient] or
    [create_patient], replaces the seven details by those of the record
    and leaves the symptoms as they were; the report requested afterwards
    is generated for the adopted patient with those earlier symptoms. *)
Theorem adoption_keeps_symptoms
    (db : gmap string row) (self : HealthAssistantFnc) :
  (forall pid p,
      get_patient_by_id None db pid = Return (Some p) ->
      exists text self',
        lookup_patient None db self pid = (Return text, self')
        /\ _patient_details self' = adopt p
        /\ _symptoms self' = _symptoms self
        /\ (patient_id p <> "" ->
            try_generate self'
            = generate_and_save_report
                {| patient_id := patient_id p; name := name p; age := age p;
                   height := height p; gender := gender p;
                   blood_group := blood_group p; weight := weight p;
                   created_at := None |}
                (_symptoms self)))
  /\ (forall now draws nm ag ht gd bg wt p db',
      DbDriver.create_patient None None now draws db nm ag ht gd bg wt None
        = Some (Return (Some p), db') ->
      exists text self',
        Api.create_patient None None now draws db self nm ag ht gd bg wt
          = Some (Return text, self', db')
        /\ _patient_details self' = adopt p
        /\ _symptoms self' = _symptoms self
        /\ try_generate self'
           = generate_and_save_report
               {| patient_id := patient_id p; name := name p; age := age p;
                  height := height p; gender := gender p;
                  blood_group := blood_group p; weight := weight p;
                  created_at := None |}
               (_symptoms self)).
Proof.
  split.
  - intros pid p Hget. unfold lookup_patient. rewrite Hget.
    do 2 eexists. split; [reflexivity |]. repeat split.
    intros Hid. unfold Api.try_generate.
    now rewrite (get_current_patient_adopted self p Hid).
  - intros now draws nm ag ht gd bg wt p db' Hcreate.
    unfold Api.create_patient. rewrite Hcreate.
    do 2 eexists. split; [reflexivity |]. repeat split.
    unfold Api.try_generate. rewrite get_current_patient_adopted; [reflexivity |].
    (* the identifier was generated, so it is well-formed *)
    unfold DbDriver.create_patient in Hcreate. cbn [id_missing] in Hcreate.
    destruct (_generate_patient_id None db draws) as [[pid|e]|] eqn:Hgen;
      [| discriminate | discriminate].
    destruct (generate_sound None db draws pid Hgen) as [Hfmt Hfree].
    destruct (insert_then_get now db pid nm ag ht gd bg wt Hfree) as [db1 [Hins Hget]].
    rewrite Hins, Hget in Hcreate. injection Hcreate as <- _.
    now apply id_format_nonempty.
Qed.

End ApiProperties.

(** ** The phase controller *)

Section AgentProperties.
Context `{PythonRuntime}.
Import Api Agent.

(** C7. Once the consultation is complete, every utterance is answered
    with the fixed acknowledgment and nothing else happens: the only calls
    are the two on the session, and the controller, its phase, the
    symptoms and the adopted patient, is exactly as before. *)
Theorem complete_is_terminal (st : agent) (content : string) :
  is_consultation_complete (assistant_fnc st) = true ->
  on_user_speech_committed st content
  = (st,
     [ conversation_item_create "assistant"
         "Your consultation has been completed and your report has been generated. Thank you!";
       response_create ]).
Proof.
  intros Hdone. unfold on_user_speech_committed. now rewrite Hdone.
Qed.

(** The same over any number of further utterances, one after the other:
    each is acknowledged and the controller never changes. *)
Lemma complete_stays_terminal (st : agent) (utterances : list string) :
  is_consultation_complete (assistant_fnc st) = true ->
  hear st utterances
  = (st,
     map (fun _ => [ conversation_item_create "assistant" completed_acknowledgment;
                     response_create ])
         utterances).
Proof.
  intros Hdone. induction utterances as [|content rest IH]; cbn [hear map].
  - reflexivity.
  - unfold on_user_speech_committed. now rewrite Hdone, IH.
Qed.

(** [handle_query] in the phase [symptoms], on a completion phrase. *)
Lemma handle_query_symptoms_done (st : agent) (content : string) (collected : bool) :
  any_in completion_phrases (lower content) = true ->
  conversation_phase (fst (handle_query st content "symptoms" collected))
  = "completion".
Proof.
  intros Hany. unfold handle_query. cbn -[any_in completion_phrases].
  now rewrite Hany.
Qed.

(** [handle_query] in the phase [completion], on anything but an
    affirmative phrase. *)
Lemma handle_query_completion_declined (st : agent) (content : string) (collected : bool) :
  any_in affirmative_phrases (lower content) = false ->
  conversation_phase (fst (handle_query st content "completion" collected))
  = "symptoms".
Proof.
  intros Hany. unfold handle_query. cbn -[any_in affirmative_phrases].
  now rewrite Hany.
Qed.

(** C8. With a patient adopted and the consultation not complete: in the
    phase [symptoms], an utterance whose lowercased text contains one of
    the completion phrases moves the phase to [completion]; in the phase
    [completion], an utterance whose lowercased text contains none of the
    affirmative phrases moves the phase back to [symptoms]. *)
Theorem phase_transitions (st : agent) (content : string) :
  is_consultation_complete (assistant_fnc st) = false ->
  has_patient (assistant_fnc st) = true ->
  (conversation_phase st = "symptoms" ->
   (exists phrase,
       In phrase ["that's all"; "nothing else"; "done"; "complete"; "finish";
                  "end consultation"]
       /\ occurs_in phrase (lower content)) ->
   conversation_phase (fst (on_user_speech_committed st content)) = "completion")
  /\ (conversation_phase st = "completion" ->
      (forall phrase,
          In phrase ["yes"; "generate"; "complete"; "done"; "finish"] ->
          ~ occurs_in phrase (lower content)) ->
      conversation_phase (fst (on_user_speech_committed st content)) = "symptoms").
Proof.
  intros Hopen Hpatient. unfold on_user_speech_committed.
  rewrite Hopen, Hpatient. split; intros -> Hphrase.
  - apply handle_query_symptoms_done. now apply any_in_spec.
  - apply handle_query_completion_declined. now apply any_in_false.
Qed.

End AgentProperties.

(** ** The theorems at work on the concrete consultation *)

Section Instances.
Import DbDriver Api Agent Scenario.
#[local] Existing Instance Small.runtime.

(** C1 on three consultations: nobody adopted; John, whose report is
    saved; John again, with a full disk. *)
Lemma end_consultation_completes_witness :
  end_consultation saving Api.init
  = ("Cannot end consultation: No patient information available.", Api.init)
  /\ end_consultation saving john_headache
     = ("Consultation complete! Your diagnostic report has been generated and saved. Thank you for using our health assistant service. Report saved as: reports/P12345678_report.txt",
        mark_complete john_headache)
  /\ end_consultation disk_full john_headache
     = ("Consultation marked as complete, but there was an issue generating your report: Failed to save report: No space left on device. Please contact support if needed.",
        mark_complete john_headache).
Proof.
  assert (Hid : patient_id john_stored <> "") by discriminate.
  split; [| split].
  - exact (proj1 (proj1 (end_consultation_completes saving Api.init) eq_refl)).
  - exact (proj2 (proj1 (proj2 (proj2 (proj2
             (end_consultation_completes saving john_headache))))
             john_stored eq_refl Hid)).
  - exact (proj2 (proj1 (proj2 (proj2 (proj2
             (end_consultation_completes disk_full john_headache))))
             john_stored eq_refl Hid)).
Defined.

(** The claim C3 names the sentence of the report for the empty case; the
    operation returns another one. *)
Lemma get_symptoms_empty_sentence :
  get_symptoms Api.init = "No symptoms have been recorded yet."
  /\ String.eqb (get_symptoms Api.init)
       "No symptoms were reported during this consultation." = false.
Proof. split; reflexivity. Qed.

(** C2 at a locked database file: the error of the store is what the
    callable ends with, and nobody is adopted. *)
Example create_patient_database_locked :
  Api.create_patient (Some (Exn OperationalError "database is locked")) None
    clock [7%N] two_patients Api.init "Test Patient" 30 170 "Male" "O+" 70
  = Some (Raise (Exn OperationalError "database is locked"), Api.init, two_patients).
Proof. reflexivity. Qed.

(** C4 on a second creation under John's identifier. *)
Lemma create_existing_id_fails_witness :
  DbDriver.create_patient None None clock [] two_patients
    "Second Patient" 30 170 "Male" "B+" 70 (Some "P12345678")
  = Some (Raise duplicate_error, two_patients).
Proof.
  apply (create_existing_id_fails None clock [] two_patients "P12345678" john
           "Second Patient" 30 170 "Male" "B+" 70).
  - reflexivity.
  - discriminate.
Defined.


(** C6 on a creation whose first draw is John's identifier. *)
Lemma create_then_get_by_id_witness :
  exists p db',
    DbDriver.create_patient None None clock [2345678%N; 7%N] two_patients
      "Alice Johnson" 28 170 "Female" "B+" 65 None
      = Some (Return (Some p), db')
    /\ get_patient_by_id None db' (patient_id p) = Return (Some p)
    /\ name p = "Alice Johnson" /\ age p = 28 /\ height p = 170
    /\ gender p = "Female" /\ blood_group p = "B+" /\ weight p = 65
    /\ created_at p = Some clock.
Proof.
  apply (create_then_get_by_id clock [2345678%N; 7%N] two_patients
           "Alice Johnson" 28 170 "Female" "B+" 65 None clock).
  - reflexivity.
  - exists 7%N. split; [right; left; reflexivity | reflexivity].
Defined.

(** C7 after John's consultation has ended. *)
Lemma complete_is_terminal_witness :
  on_user_speech_committed
    (in_phase "completion" (snd (end_consultation saving john_headache)))
    "one more thing"
  = (in_phase "completion" (snd (end_consultation saving john_headache)),
     [ conversation_item_create "assistant"
         "Your consultation has been completed and your report has been generated. Thank you!";
       response_create ]).
Proof.
  apply (complete_is_terminal
           (in_phase "completion" (snd (end_consultation saving john_headache)))
           "one more thing").
  reflexivity.
Defined.

(** C8 on an utterance that ends the symptoms. *)
Lemma phase_transitions_witness :
  conversation_phase
    (fst (on_user_speech_committed (in_phase "symptoms" john_headache)
            "I am DONE now"))
  = "completion".
Proof.
  apply (proj1 (phase_transitions (in_phase "symptoms" john_headache)
                  "I am DONE now" eq_refl eq_refl)).
  - reflexivity.
  - exists "done". split.
    + right; right; left; reflexivity.
    + exists "i am ", " now". reflexivity.
Defined.

(** C9 on two draws, the first of which is taken. *)
Lemma generated_id_format_and_absent_witness :
  id_format "P10000007" = true /\ two_patients !! "P10000007" = None.
Proof.
  apply (proj1 (generated_id_format_and_absent None two_patients [2345678%N; 7%N])).
  reflexivity.
Defined.

(** C10: John reports a headache, then Jane is looked up; the report is
    requested for Jane, with the headache. *)
Lemma adoption_keeps_symptoms_witness :
  exists text self',
    lookup_patient None two_patients john_headache "P87654321" = (Return text, self')
    /\ _patient_details self' = jane_details
    /\ _symptoms self' = ["Headache"]
    /\ try_generate saving self' = saving jane_current ["Headache"].
Proof.
  destruct (proj1 (adoption_keeps_symptoms saving two_patients john_headache)
              "P87654321" jane_stored eq_refl)
    as [text [self' [Hcall [Hdetails [Hsymptoms Hreport]]]]].
  exists text, self'. repeat split; try assumption.
  apply Hreport. discriminate.
Defined.

End Instances.

(** * Further properties of the code *)

(** ** The store: what a creation writes, and what it leaves alone *)

Section StoreWrites.
Context `{PythonRuntime}.
Import DbDriver.

(** What is known when [create_patient] ends with a record. *)
Lemma create_success_inv
    (fault read_fault : option exn) (now : string) (draws : list N) (db db' : gmap string row)
    (nm : string) (ag : Z) (ht : float) (gd bg : string) (wt : float)
    (supplied : option string) (found : option Patient) :
  create_patient fault read_fault now draws db nm ag ht gd bg wt supplied
    = Some (Return found, db') ->
  exists pid,
    pid <> "" /\ db !! pid = None
    /\ (id_missing supplied = true -> id_format pid = true)
    /\ (id_missing supplied = false -> supplied = Some pid)
    /\ db' = <[pid := {| row_name := nm; row_age := ag; row_height := ht;
                         row_gender := gd; row_blood_group := bg;
                         row_weight := wt; row_created_at := Some now |}]> db
    /\ found = Some {| patient_id := pid; name := nm; age := ag; height := ht;
                       gender := gd; blood_group := bg; weight := wt;
                       created_at := parse_created_at (Some now) |}.
Proof.
  unfold create_patient. intros Hcreate.
  assert (Hchosen : exists pid,
             (if id_missing supplied then _generate_patient_id fault db draws
              else Some (Return (default "" supplied))) = Some (Return pid)
             /\ pid <> ""
             /\ (id_missing supplied = true -> id_format pid = true /\ db !! pid = None)
             /\ (id_missing supplied = false -> supplied = Some pid)).
  { destruct (id_missing supplied) eqn:Hmiss.
    - destruct (_generate_patient_id fault db draws) as [[pid|e]|] eqn:Hgen;
        [| discriminate | discriminate].
      destruct (generate_sound fault db draws pid Hgen) as [Hfmt Hfree].
      exists pid. repeat split; auto; try discriminate.
      now apply id_format_nonempty.
    - destruct supplied as [[|c pid]|]; try discriminate.
      exists (String c pid). repeat split; auto; discriminate. }
  destruct Hchosen as [pid [Hpid [Hne [Hgen Hsup]]]]. rewrite Hpid in Hcreate.
  destruct fault as [e|]; [discriminate |].
  unfold insert_patient in Hcreate.
  destruct (db !! pid) as [r|] eqn:Hlook; [discriminate |].
  cbv beta iota in Hcreate.
  destruct read_fault as [e|]; [discriminate |].
  erewrite get_patient_by_id_present in Hcreate by apply lookup_insert_eq.
  injection Hcreate as <- <-. exists pid.
  repeat split; auto. intros Hmiss. now apply Hgen.
Qed.

(** X1. Creation under a supplied identifier that is free stores the
    patient under exactly that identifier, with the values given and the
    current timestamp, and touches no other row. *)
Theorem create_supplied_id_stored
    (now : string) (draws : list N) (db : gmap string row) (pid : string)
    (nm : string) (ag : Z) (ht : float) (gd bg : string) (wt : float) :
  pid <> "" ->
  db !! pid = None ->
  exists p db',
    create_patient None None now draws db nm ag ht gd bg wt (Some pid)
      = Some (Return (Some p), db')
    /\ patient_id p = pid
    /\ db' !! pid = Some {| row_name := nm; row_age := ag; row_height := ht;
                            row_gender := gd; row_blood_group := bg;
                            row_weight := wt; row_created_at := Some now |}
    /\ forall k, k <> pid -> db' !! k = db !! k.
Proof.
  intros Hne Hfree.
  set (r := {| row_name := nm; row_age := ag; row_height := ht;
               row_gender := gd; row_blood_group := bg;
               row_weight := wt; row_created_at := Some now |}).
  eexists. exists (<[pid := r]> db). split; [| split; [| split]].
  - unfold create_patient. rewrite (id_missing_supplied pid Hne).
    change (default "" (Some pid)) with pid. cbv beta iota zeta.
    unfold insert_patient. rewrite Hfree. cbv beta iota. fold r.
    now rewrite (get_patient_by_id_present (<[pid := r]> db) pid r
                   (lookup_insert_eq db pid r)).
  - reflexivity.
  - apply lookup_insert_eq.
  - intros k Hk. now apply lookup_insert_ne.
Qed.

(** A creation that ends with an exception has written nothing, unless
    the exception comes from reading the row back: then the row is there,
    under an identifier that was free. *)
Lemma create_raise_inv
    (fault read_fault : option exn) (now : string) (draws : list N)
    (db db' : gmap string row)
    (nm : string) (ag : Z) (ht : float) (gd bg : string) (wt : float)
    (supplied : option string) (e : exn) :
  create_patient fault read_fault now draws db nm ag ht gd bg wt supplied
    = Some (Raise e, db') ->
  db' = db
  \/ (exists pid,
         pid <> "" /\ db !! pid = None /\ read_fault = Some e
         /\ db' = <[pid := {| row_name := nm; row_age := ag; row_height := ht;
                              row_gender := gd; row_blood_group := bg;
                              row_weight := wt; row_created_at := Some now |}]> db).
Proof.
  unfold create_patient.
  assert (Hchosen :
            forall pid,
              (if id_missing supplied then _generate_patient_id fault db draws
               else Some (Return (default "" supplied))) = Some (Return pid) ->
              pid <> "").
  { intros pid. destruct (id_missing supplied) eqn:Hmiss.
    - intros Hgen. apply id_format_nonempty.
      now apply (generate_sound fault db draws).
    - destruct supplied as [[|c s0]|]; try discriminate.
      intros [= <-]. discriminate. }
  destruct (if id_missing supplied then _generate_patient_id fault db draws
            else Some (Return (default "" supplied))) as [[pid|e0]|];
    [| intros [= _ <-]; now left | discriminate].
  specialize (Hchosen pid eq_refl).
  destruct fault as [e0|]; [intros [= _ <-]; now left |].
  unfold insert_patient. destruct (db !! pid) as [r|] eqn:Hlook;
    [intros [= _ <-]; now left |].
  cbv beta iota. destruct read_fault as [e1|].
  - cbn [get_patient_by_id]. intros [= <- <-]. right. exists pid. now repeat split.
  - erewrite get_patient_by_id_present by apply lookup_insert_eq. discriminate.
Qed.

(** X2. A creation writes one row or none, and it is not atomic. When it
    returns, it returns the record, and the table has gained exactly the
    row of that record under an identifier that was free; it never
    returns without a record. When it raises, the table is the one before
    the call, except when the exception comes from reading the row back
    after the commit: then the call raises although the row is stored. If
    reading back works, a creation that raises has written nothing. *)
Theorem create_writes_one_row_or_none
    (fault read_fault : option exn) (now : string) (draws : list N)
    (db db' : gmap string row)
    (nm : string) (ag : Z) (ht : float) (gd bg : string) (wt : float)
    (supplied : option string) (res : outcome (option Patient)) :
  create_patient fault read_fault now draws db nm ag ht gd bg wt supplied
    = Some (res, db') ->
  (db' = db /\ exists e, res = Raise e)
  \/ (exists pid,
         pid <> "" /\ db !! pid = None
         /\ db' = <[pid := {| row_name := nm; row_age := ag; row_height := ht;
                              row_gender := gd; row_blood_group := bg;
                              row_weight := wt; row_created_at := Some now |}]> db
         /\ ((read_fault = None
              /\ res = Return (Some {| patient_id := pid; name := nm; age := ag;
                                       height := ht; gender := gd;
                                       blood_group := bg; weight := wt;
                                       created_at := parse_created_at (Some now) |}))
             \/ (exists e, read_fault = Some e /\ res = Raise e))).
Proof.
  intros Hcreate. destruct res as [found|e].
  - right.
    destruct (create_success_inv _ _ _ _ _ _ _ _ _ _ _ _ _ _ Hcreate)
      as [pid [Hne [Hfree [_ [_ [-> ->]]]]]].
    exists pid. repeat split; try assumption. left. split; [| reflexivity].
    unfold create_patient in Hcreate.
    destruct read_fault as [e|]; [| reflexivity]. exfalso.
    destruct (if id_missing supplied then _generate_patient_id fault db draws
              else Some (Return (default "" supplied))) as [[pid0|e0]|];
      [| discriminate | discriminate].
    destruct fault as [e0|]; [discriminate |].
    destruct (insert_patient now db pid0 nm ag ht gd bg wt); discriminate.
  - destruct (create_raise_inv _ _ _ _ _ _ _ _ _ _ _ _ _ _ Hcreate)
      as [-> | [pid [Hne [Hfree [-> ->]]]]].
    + left. split; [reflexivity | now exists e].
    + right. exists pid. repeat split; try assumption. right. now exists e.
Qed.

(** Whatever a creation does, every row that was in the table is still
    there, unchanged. *)
Lemma create_keeps_rows
    (fault read_fault : option exn) (now : string) (draws : list N)
    (db db' : gmap string row)
    (nm : string) (ag : Z) (ht : float) (gd bg : string) (wt : float)
    (supplied : option string) (res : outcome (option Patient))
    (k : string) (r : row) :
  create_patient fault read_fault now draws db nm ag ht gd bg wt supplied
    = Some (res, db') ->
  db !! k = Some r ->
  db' !! k = Some r.
Proof.
  intros Hcreate Hk. destruct res as [found|e].
  - destruct (create_success_inv _ _ _ _ _ _ _ _ _ _ _ _ _ _ Hcreate)
      as [pid [_ [Hfree [_ [_ [-> _]]]]]].
    rewrite lookup_insert_ne; [exact Hk | congruence].
  - destruct (create_raise_inv _ _ _ _ _ _ _ _ _ _ _ _ _ _ Hcreate)
      as [-> | [pid [_ [Hfree [_ ->]]]]]; [exact Hk |].
    rewrite lookup_insert_ne; [exact Hk | congruence].
Qed.

(** X3. Two creations in a row never give the same identifier, generated
    or supplied, and after the second both patients can be read. *)
Theorem successive_creations_distinct
    (f1 f2 rf1 rf2 : option exn) (now1 now2 : string) (draws1 draws2 : list N)
    (db db1 db2 : gmap string row)
    (nm1 nm2 : string) (ag1 ag2 : Z) (ht1 ht2 : float) (gd1 gd2 bg1 bg2 : string)
    (wt1 wt2 : float) (s1 s2 : option string) (p1 p2 : Patient) :
  create_patient f1 rf1 now1 draws1 db nm1 ag1 ht1 gd1 bg1 wt1 s1
    = Some (Return (Some p1), db1) ->
  create_patient f2 rf2 now2 draws2 db1 nm2 ag2 ht2 gd2 bg2 wt2 s2
    = Some (Return (Some p2), db2) ->
  patient_id p1 <> patient_id p2
  /\ get_patient_by_id None db2 (patient_id p1) = Return (Some p1)
  /\ get_patient_by_id None db2 (patient_id p2) = Return (Some p2).
Proof.
  intros Hc1 Hc2.
  destruct (create_success_inv _ _ _ _ _ _ _ _ _ _ _ _ _ _ Hc1)
    as [pid1 [_ [_ [_ [_ [-> [= ->]]]]]]].
  destruct (create_success_inv _ _ _ _ _ _ _ _ _ _ _ _ _ _ Hc2)
    as [pid2 [_ [Hfree2 [_ [_ [-> [= ->]]]]]]].
  cbn [patient_id].
  assert (Hne : pid1 <> pid2).
  { intros ->. now rewrite lookup_insert_eq in Hfree2. }
  split; [exact Hne |]. split.
  - apply (get_patient_by_id_present _ pid1
             {| row_name := nm1; row_age := ag1; row_height := ht1;
                row_gender := gd1; row_blood_group := bg1;
                row_weight := wt1; row_created_at := Some now1 |}).
    rewrite lookup_insert_ne by congruence. apply lookup_insert_eq.
  - apply (get_patient_by_id_present _ pid2
             {| row_name := nm2; row_age := ag2; row_height := ht2;
                row_gender := gd2; row_blood_group := bg2;
                row_weight := wt2; row_created_at := Some now2 |}).
    apply lookup_insert_eq.
Qed.

(** X4. Identifier generation takes the first draw whose identifier is
    free: the draws before it, all taken, are skipped, and the ones after
    it are not looked at. *)
Theorem generate_takes_first_free
    (db : gmap string row) (taken : list N) (r : N) (rest : list N) :
  (forall t, In t taken -> db !! candidate_id t <> None) ->
  db !! candidate_id r = None ->
  _generate_patient_id None db (taken ++ r :: rest)%list
    = Some (Return (candidate_id r)).
Proof.
  intros Htaken Hfree. induction taken as [|t taken IH];
    cbn [app _generate_patient_id]; unfold get_patient_by_id, select_by_id.
  - now rewrite Hfree.
  - destruct (db !! candidate_id t) eqn:Hlook.
    + apply IH. intros t' Hin. apply Htaken. now right.
    + exfalso. apply (Htaken t); [now left | exact Hlook].
Qed.

(** X5. The store never writes a row under the empty identifier: an empty
    identifier is replaced by a generated one, so a table without such a
    row stays without it. *)
Theorem create_never_stores_empty_id
    (fault read_fault : option exn) (now : string) (draws : list N)
    (db db' : gmap string row)
    (nm : string) (ag : Z) (ht : float) (gd bg : string) (wt : float)
    (supplied : option string) (res : outcome (option Patient)) :
  db !! "" = None ->
  create_patient fault read_fault now draws db nm ag ht gd bg wt supplied
    = Some (res, db') ->
  db' !! "" = None.
Proof.
  intros Hkey Hcreate. destruct res as [found|e].
  - destruct (create_success_inv _ _ _ _ _ _ _ _ _ _ _ _ _ _ Hcreate)
      as [pid [Hne [_ [_ [_ [-> _]]]]]].
    rewrite lookup_insert_ne; [exact Hkey | exact Hne].
  - destruct (create_raise_inv _ _ _ _ _ _ _ _ _ _ _ _ _ _ Hcreate)
      as [-> | [pid [Hne [_ [_ ->]]]]]; [exact Hkey |].
    rewrite lookup_insert_ne; [exact Hkey | exact Hne].
Qed.

End StoreWrites.

(** ** The callable operations: what they show, keep and repeat *)

Section ApiBehaviour.
Context `{PythonRuntime}.
Import DbDriver Api.
Variable generate_and_save_report : Patient -> list string -> outcome string.

Abbreviation end_consultation := (Api.end_consultation generate_and_save_report).
Abbreviation try_generate := (Api.try_generate generate_and_save_report).

(** The line of a field in the patient text. *)
Abbreviation detail_line :=
  (fun kv : PatientDetails * pyval =>
     value (fst kv) ++ ": " ++ format (snd kv) ++ String "010" "").

Lemma get_patient_str_loop (fields : list (PatientDetails * pyval)) :
  forall text : string,
    fold_left
      (fun patient_str '(key, v) =>
         if truthy v
         then patient_str ++ value key ++ ": " ++ format v ++ String "010" ""
         else patient_str)
      fields text
    = text ++ fold_right append ""
                (map detail_line (List.filter (fun kv => truthy (snd kv)) fields)).
Proof.
  induction fields as [|[key v] fields IH]; intros text;
    cbn [fold_left List.filter map fold_right].
  - now rewrite append_nil_r.
  - rewrite IH. cbn [snd]. destruct (truthy v); [| reflexivity].
    cbn [map fold_right fst snd]. now rewrite !append_assoc.
Qed.

(** X6. The patient text has one line [key: value] for each of the seven
    fields whose value is truthy, in the order of the dictionary; a field
    that holds the empty string, the age 0 or a height or weight of zero
    has no line. *)
Theorem get_patient_str_lines (self : HealthAssistantFnc) :
  get_patient_str self
  = fold_right append ""
      (map detail_line
         (List.filter (fun kv => truthy (snd kv)) (items (_patient_details self))))
  /\ (d_age (_patient_details self) = VInt 0 ->
      get_patient_str self
      = get_patient_str
          (set_details self
             {| d_patient_id := d_patient_id (_patient_details self);
                d_name := d_name (_patient_details self);
                d_age := VStr "";
                d_height := d_height (_patient_details self);
                d_gender := d_gender (_patient_details self);
                d_blood_group := d_blood_group (_patient_details self);
                d_weight := d_weight (_patient_details self) |})).
Proof.
  split.
  - unfold get_patient_str. now rewrite get_patient_str_loop.
  - intros Hage. unfold get_patient_str. rewrite !get_patient_str_loop.
    unfold items. cbn [set_details _patient_details d_patient_id d_name d_age
                         d_height d_gender d_blood_group d_weight].
    rewrite Hage. reflexivity.
Qed.

Lemma add_symptom_message (self : HealthAssistantFnc) (symptom : string) :
  fst (add_symptom self symptom)
  = "Symptom added: " ++ symptom ++ ". Total symptoms recorded: "
    ++ str_nat (S (length (_symptoms self))).
Proof.
  unfold add_symptom. cbn [fst]. now rewrite length_app, Nat.add_1_r.
Qed.

Abbreviation add_all :=
  (fold_left (fun (self : HealthAssistantFnc) symptom => snd (add_symptom self symptom))).

(** X7. Symptoms added one after the other are kept in the order added,
    behind those already there; nothing else of the object changes; the
    acknowledgment of the next addition counts all of them; and
    [get_symptoms] lists them all, numbered from 1. *)
Theorem symptoms_added_in_order (symptoms : list string) :
  forall self : HealthAssistantFnc,
    _symptoms (add_all symptoms self) = (_symptoms self ++ symptoms)%list
    /\ _patient_details (add_all symptoms self) = _patient_details self
    /\ _conversation_complete (add_all symptoms self) = _conversation_complete self
    /\ (forall next,
           fst (add_symptom (add_all symptoms self) next)
           = "Symptom added: " ++ next ++ ". Total symptoms recorded: "
             ++ str_nat (S (length (_symptoms self) + length symptoms)))
    /\ get_symptoms (add_all symptoms self)
       = match (_symptoms self ++ symptoms)%list with
         | [] => "No symptoms have been recorded yet."
         | all => "Recorded symptoms:" ++ String "010" (numbered_from 1 all)
         end.
Proof.
  assert (Hkeep : forall self : HealthAssistantFnc,
             _symptoms (add_all symptoms self) = (_symptoms self ++ symptoms)%list
             /\ _patient_details (add_all symptoms self) = _patient_details self
             /\ _conversation_complete (add_all symptoms self)
                = _conversation_complete self).
  { induction symptoms as [|s symptoms IH]; intros self; cbn [fold_left].
    - now rewrite app_nil_r.
    - destruct (IH (snd (add_symptom self s))) as [-> [-> ->]].
      cbn. now rewrite <- app_assoc. }
  intros self. destruct (Hkeep self) as [Hsym [Hdet Hdone]].
  repeat split; try assumption.
  - intros next. now rewrite add_symptom_message, Hsym, length_app.
  - unfold get_symptoms. rewrite Hsym.
    destruct (_symptoms self ++ symptoms)%list as [|s all]; [reflexivity |].
    rewrite get_symptoms_loop. now rewrite append_assoc.
Qed.

(** One call undoes nothing. *)
Lemma perform_never_undoes (db db' : gmap string row) (self self' : HealthAssistantFnc)
    (c : call) :
  perform generate_and_save_report db self c = Some (db', self') ->
  (_conversation_complete self = true -> _conversation_complete self' = true)
  /\ (exists added, _symptoms self' = (_symptoms self ++ added)%list)
  /\ (forall k r, db !! k = Some r -> db' !! k = Some r).
Proof.
  intros Hstep.
  destruct c as [fault pid | fault read_fault now draws nm ag ht gd bg wt
                 | | symptom | |];
    cbn [perform] in Hstep.
  - injection Hstep as <- <-. unfold lookup_patient.
    destruct (get_patient_by_id fault db pid) as [[p|]|e]; cbn [snd];
      (split; [auto | split; [exists []; now rewrite app_nil_r | auto]]).
  - unfold Api.create_patient in Hstep.
    destruct (DbDriver.create_patient fault read_fault now draws db
                nm ag ht gd bg wt None)
      as [[res db1]|] eqn:Hcreate; [| discriminate].
    assert (Hrows : forall k r, db !! k = Some r -> db1 !! k = Some r).
    { intros k r. exact (create_keeps_rows _ _ _ _ _ _ _ _ _ _ _ _ _ _ _ _ Hcreate). }
    destruct res as [[p|]|e]; injection Hstep as <- <-;
      (split; [auto | split; [exists []; now rewrite app_nil_r | exact Hrows]]).
  - injection Hstep as <- <-.
    split; [auto | split; [exists []; now rewrite app_nil_r | auto]].
  - injection Hstep as <- <-.
    split; [auto | split; [now exists [symptom] | auto]].
  - injection Hstep as <- <-.
    split; [auto | split; [exists []; now rewrite app_nil_r | auto]].
  - injection Hstep as <- <-. unfold Api.end_consultation.
    destruct (negb (has_patient self)); [| destruct try_generate]; cbn [snd];
      (split; [auto | split; [exists []; now rewrite app_nil_r | auto]]).
Qed.

(** X8. No sequence of calls undoes anything: a consultation that is
    complete stays complete, the symptoms recorded stay first in the list,
    in their order, and every record in the table stays as it is. *)
Theorem calls_never_undo (calls : list call) :
  forall (db db' : gmap string row) (self self' : HealthAssistantFnc),
    perform_all generate_and_save_report db self calls = Some (db', self') ->
    (_conversation_complete self = true -> _conversation_complete self' = true)
    /\ (exists added, _symptoms self' = (_symptoms self ++ added)%list)
    /\ (forall k r, db !! k = Some r -> db' !! k = Some r).
Proof.
  induction calls as [|c calls IH]; intros db db' self self' Hrun;
    cbn [perform_all] in Hrun.
  - injection Hrun as <- <-.
    split; [auto | split; [exists []; now rewrite app_nil_r | auto]].
  - destruct (perform generate_and_save_report db self c) as [[db1 self1]|] eqn:Hstep;
      [| discriminate].
    destruct (perform_never_undoes _ _ _ _ _ Hstep) as [Hdone [[a1 Hsym] Hrows]].
    destruct (IH _ _ _ _ Hrun) as [Hdone' [[a2 Hsym'] Hrows']].
    split; [auto | split; [| auto]].
    exists (a1 ++ a2)%list. now rewrite Hsym', Hsym, app_assoc.
Qed.

(** X9. Whenever [create_patient] returns, a patient has been created and
    adopted: the text names a well-formed identifier, the object holds the
    details under it, and looking that identifier up from any other
    function context gives the same details. The text is never the
    failure message. *)
Theorem created_patient_adopted_and_found
    (fault read_fault : option exn) (now : string) (draws : list N)
    (db db' : gmap string row)
    (self self' : HealthAssistantFnc)
    (nm : string) (ag : Z) (ht : float) (gd bg : string) (wt : float)
    (text : string) :
  Api.create_patient fault read_fault now draws db self nm ag ht gd bg wt
    = Some (Return text, self', db') ->
  exists pid,
    id_format pid = true
    /\ text = "Patient created! Your patient ID is: " ++ pid
    /\ has_patient self' = true
    /\ _patient_details self'
       = {| d_patient_id := pid; d_name := nm; d_age := VInt ag;
            d_height := VFloat ht; d_gender := gd; d_blood_group := bg;
            d_weight := VFloat wt |}
    /\ forall other,
         _patient_details (snd (lookup_patient None db' other pid))
         = _patient_details self'.
Proof.
  unfold Api.create_patient.
  destruct (DbDriver.create_patient fault read_fault now draws db nm ag ht gd bg wt None)
    as [[res db1]|] eqn:Hcreate; [| discriminate].
  destruct res as [found|e]; [| discriminate].
  destruct (create_success_inv _ _ _ _ _ _ _ _ _ _ _ _ _ _ Hcreate)
    as [pid [Hne [_ [Hfmt [_ [Hdb ->]]]]]].
  intros [= <- <- <-]. exists pid.
  split; [now apply Hfmt |]. split; [reflexivity |].
  split; [now apply has_patient_adopt |]. split; [reflexivity |].
  intros other. unfold lookup_patient.
  rewrite (get_patient_by_id_present db1 pid
             {| row_name := nm; row_age := ag; row_height := ht;
                row_gender := gd; row_blood_group := bg;
                row_weight := wt; row_created_at := Some now |})
    by (rewrite Hdb; apply lookup_insert_eq).
  reflexivity.
Qed.

(** X10. [end_consultation] does not look at the completion flag: called
    again, it asks the generator again, for the same patient and the same
    symptoms, and leaves the object as the first call left it. *)
Theorem end_consultation_again (self : HealthAssistantFnc) :
  try_generate (snd (end_consultation self)) = try_generate self
  /\ snd (end_consultation (snd (end_consultation self))) = snd (end_consultation self)
  /\ (has_patient self = true ->
      fst (end_consultation (snd (end_consultation self)))
      = match try_generate self with
        | Return report_path =>
            "Consultation complete! Your diagnostic report has been generated and saved. Thank you for using our health assistant service. Report saved as: "
              ++ report_path
        | Raise e =>
            "Consultation marked as complete, but there was an issue generating your report: "
              ++ str_exn e ++ ". Please contact support if needed."
        end).
Proof.
  assert (Hafter : snd (end_consultation self) = self
                   \/ snd (end_consultation self) = mark_complete self).
  { unfold Api.end_consultation.
    destruct (negb (has_patient self)); [now left |].
    destruct try_generate; now right. }
  assert (Hmark : forall s, Api.end_consultation generate_and_save_report (mark_complete s)
                            = (fst (end_consultation s), snd (end_consultation (mark_complete s)))).
  { intros s. unfold Api.end_consultation.
    change (has_patient (mark_complete s)) with (has_patient s).
    change (Api.try_generate generate_and_save_report (mark_complete s))
      with (try_generate s).
    destruct (negb (has_patient s)); [reflexivity |].
    destruct try_generate; reflexivity. }
  split; [| split].
  - destruct Hafter as [-> | ->]; reflexivity.
  - unfold Api.end_consultation at 2 3.
    destruct (has_patient self) eqn:Hp; cbn [negb].
    + destruct try_generate eqn:Hgen; cbn [snd]; unfold Api.end_consultation;
        change (has_patient (mark_complete self)) with (has_patient self);
        change (Api.try_generate generate_and_save_report (mark_complete self))
          with (try_generate self);
        rewrite Hp, Hgen; reflexivity.
    + cbn [snd]. unfold Api.end_consultation. now rewrite Hp.
  - intros Hp. unfold Api.end_consultation at 2. rewrite Hp. cbn [negb].
    destruct try_generate eqn:Hgen; cbn [snd]; rewrite Hmark;
      unfold Api.end_consultation; rewrite Hp, Hgen; reflexivity.
Qed.

End ApiBehaviour.

(** ** The phase controller: invariants and sequences of utterances *)

Section AgentBehaviour.
Context `{PythonRuntime}.
Import Api Agent.

Ltac handler_cases :=
  unfold on_user_speech_committed, handle_query;
  repeat match goal with
         | |- context [if ?b then _ else _] => destruct b eqn:?
         end.

(** What one utterance keeps, every sequence of utterances keeps. *)
Lemma hear_invariant (P : agent -> Prop) :
  (forall st content, P st -> P (fst (on_user_speech_committed st content))) ->
  forall utterances st, P st -> P (fst (hear st utterances)).
Proof.
  intros Hstep utterances. induction utterances as [|content rest IH];
    intros st Hst; cbn [hear]; [exact Hst |].
  specialize (Hstep st content Hst).
  destruct (on_user_speech_committed st content) as [st1 calls].
  specialize (IH st1 Hstep). destruct (hear st1 rest) as [st2 later].
  exact IH.
Qed.

Lemma handler_keeps_fnc (st : agent) (content : string) :
  assistant_fnc (fst (on_user_speech_committed st content)) = assistant_fnc st.
Proof. handler_cases; reflexivity. Qed.

(** X11. The handler never touches the function context: over any
    sequence of utterances no patient is adopted, no symptom is recorded
    and the consultation is not completed by the handler itself; only the
    callable operations do that. *)
Theorem hearing_keeps_function_context (utterances : list string) (st : agent) :
  assistant_fnc (fst (hear st utterances)) = assistant_fnc st.
Proof.
  apply (hear_invariant (fun s => assistant_fnc s = assistant_fnc st)); [| reflexivity].
  intros s content Hs. now rewrite handler_keeps_fnc.
Qed.

(** A phase the program assigns. *)
Abbreviation known_phase :=
  (fun phase : string =>
     phase = "info_collection" \/ phase = "symptoms" \/ phase = "completion").

(** One item for the session, then the request to respond; the item is
    an instruction or the acknowledgment, never the echoed utterance. *)
Abbreviation instructs :=
  (fun calls : list session_call =>
     exists role text,
       calls = [conversation_item_create role text; response_create]
       /\ (role = "system" \/ role = "assistant")).



(** X13. The phase [info_collection] is never entered again: once the
    controller has left it, no sequence of utterances brings it back. *)
Theorem hearing_never_returns_to_info_collection
    (utterances : list string) (st : agent) :
  conversation_phase st <> "info_collection" ->
  conversation_phase (fst (hear st utterances)) <> "info_collection".
Proof.
  apply (hear_invariant (fun s => conversation_phase s <> "info_collection")).
  clear st. intros st content Hst. handler_cases; cbn; (exact Hst || discriminate).
Qed.

(** X14. The phase changes only for an adopted patient in a consultation
    that is not complete: without a patient, or after completion, every
    utterance leaves the controller exactly as it was. *)
Theorem phase_change_needs_patient (st : agent) (content : string) :
  fst (on_user_speech_committed st content) <> st ->
  has_patient (assistant_fnc st) = true
  /\ is_consultation_complete (assistant_fnc st) = false.
Proof.
  handler_cases; cbn [fst]; intros Hchanged; try (now split); now destruct Hchanged.
Qed.

(** A phrase is not found across a character it does not contain, nor
    inside a text without its first character. *)
Lemma startswith_before (c : ascii) (p : string) :
  str_in (String c "") p = false ->
  forall u rest, startswith p (u ++ String c rest) = startswith p u.
Proof.
  induction p as [|a p IH]; intros Hc u rest; [reflexivity |].
  cbn [str_in startswith] in Hc.
  rewrite andb_true_r in Hc. apply orb_false_elim in Hc as [Hca Hp].
  destruct u as [|b u]; cbn [append startswith].
  - rewrite Ascii.eqb_sym. now rewrite Hca.
  - now rewrite IH.
Qed.

Lemma str_in_split (c : ascii) (p : string) :
  str_in (String c "") p = false ->
  forall s rest, str_in p (s ++ String c rest) = str_in p s || str_in p rest.
Proof.
  intros Hc s rest. induction s as [|b s IH].
  - pose proof (startswith_before c p Hc "" rest) as E. cbn [append] in E.
    cbn [append str_in]. now rewrite E, orb_false_r.
  - change (String b s ++ String c rest) with (String b (s ++ String c rest)).
    cbn [str_in]. rewrite IH.
    change (String b (s ++ String c rest)) with (String b s ++ String c rest).
    rewrite (startswith_before c p Hc (String b s) rest).
    now rewrite orb_assoc.
Qed.

Lemma str_in_skip (a : ascii) (p x : string) :
  str_in (String a "") x = false ->
  forall t, str_in (String a p) (x ++ t) = str_in (String a p) t.
Proof.
  intros Hx t. induction x as [|b x IH]; [reflexivity |].
  cbn [str_in startswith] in Hx.
  rewrite andb_true_r in Hx. apply orb_false_elim in Hx as [Hab Hx].
  change (String b x ++ t) with (String b (x ++ t)).
  cbn [str_in startswith]. now rewrite Hab, IH.
Qed.

Lemma digits_without_N (s : string) :
  all_digits s = true -> str_in "N" s = false.
Proof.
  induction s as [|c s IH]; [reflexivity |].
  cbn [all_digits]. intros Hd. apply andb_prop in Hd as [Hc Hs].
  cbn [str_in startswith]. rewrite (IH Hs), andb_true_r, orb_false_r.
  destruct (Ascii.eqb_spec "N"%char c) as [<- | Hne]; [now cbv in Hc | reflexivity].
Qed.

Lemma no_symptoms_in_list (symptoms : list string) :
  forall i, str_in "No symptoms" (numbered_from i symptoms)
            = existsb (str_in "No symptoms") symptoms.
Proof.
  induction symptoms as [|s symptoms IH]; intros i; [reflexivity |].
  cbn [numbered_from existsb]. unfold numbered_line.
  rewrite !append_assoc.
  rewrite str_in_skip
    by (apply digits_without_N; unfold str_nat; apply str_N_decimal).
  rewrite (str_in_skip "N" "o symptoms" ". ") by reflexivity.
  cbn [append].
  rewrite (str_in_split "010" "No symptoms") by reflexivity.
  now rewrite IH.
Qed.

(** X15. While symptoms are collected, the handler asks for the first
    symptom exactly when [get_symptoms] contains the words [No symptoms]:
    when nothing is recorded, and also when a recorded symptom itself
    contains these words. Otherwise it asks to follow up on the symptoms
    recorded. *)
Theorem first_symptom_instruction (st : agent) (content : string) :
  is_consultation_complete (assistant_fnc st) = false ->
  has_patient (assistant_fnc st) = true ->
  conversation_phase st = "symptoms" ->
  any_in completion_phrases (lower content) = false ->
  (snd (on_user_speech_committed st content)
   = [ conversation_item_create "system"
         ("Collect the patient's symptoms. User message: " ++ content);
       response_create ]
   <-> (_symptoms (assistant_fnc st) = []
        \/ exists symptom,
             In symptom (_symptoms (assistant_fnc st))
             /\ occurs_in "No symptoms" symptom))
  /\ (snd (on_user_speech_committed st content)
      = [ conversation_item_create "system"
            ("Collect the patient's symptoms. User message: " ++ content);
          response_create ]
      \/ snd (on_user_speech_committed st content)
         = [ conversation_item_create "system"
               (Prompts.SYMPTOM_FOLLOWUP_MESSAGE (_symptoms (assistant_fnc st))
                  ++ " User message: " ++ content);
             response_create ]).
Proof.
  intros Hopen Hpatient Hphase Hmore.
  assert (Hfound : str_in "No symptoms" (get_symptoms (assistant_fnc st)) = true
                   <-> (_symptoms (assistant_fnc st) = []
                        \/ exists symptom,
                             In symptom (_symptoms (assistant_fnc st))
                             /\ occurs_in "No symptoms" symptom)).
  { unfold get_symptoms.
    destruct (_symptoms (assistant_fnc st)) as [|s symptoms] eqn:Hsym.
    - split; [now left | reflexivity].
    - rewrite get_symptoms_loop.
      rewrite (str_in_skip "N" "o symptoms" ("Recorded symptoms:" ++ String "010" ""))
        by reflexivity.
      rewrite no_symptoms_in_list, existsb_exists. split.
      + intros [x [Hin Hx]]. right. exists x. split; [exact Hin |].
        now apply str_in_spec.
      + intros [Hnil | [x [Hin Hx]]]; [discriminate |].
        exists x. split; [exact Hin |]. now apply str_in_spec. }
  unfold on_user_speech_committed, handle_query.
  rewrite Hopen, Hpatient, Hphase.
  cbn -[any_in completion_phrases str_in get_symptoms Prompts.SYMPTOM_FOLLOWUP_MESSAGE].
  rewrite Hmore.
  destruct (str_in "No symptoms" (get_symptoms (assistant_fnc st))) eqn:Hin;
    cbn [snd].
  - split; [| now left]. split; [intros _; now apply Hfound | reflexivity].
  - split; [| now right]. split.
    + unfold Prompts.SYMPTOM_FOLLOWUP_MESSAGE. cbn. discriminate.
    + intros Hsome. apply Hfound in Hsome. discriminate.
Qed.

(** X16. An utterance that says [done], [complete] or [finish] counts both
    as the end of the symptoms and as the confirmation: heard twice in the
    phase [symptoms], it leads to the phase [completion] and then to the
    instruction to call [end_consultation]. *)
Theorem done_twice_requests_report (st : agent) (content : string) :
  is_consultation_complete (assistant_fnc st) = false ->
  has_patient (assistant_fnc st) = true ->
  conversation_phase st = "symptoms" ->
  (exists phrase,
      In phrase ["done"; "complete"; "finish"]
      /\ occurs_in phrase (lower content)) ->
  hear st [content; content]
  = (set_phase st "completion",
     [ [ conversation_item_create "system"
           (Prompts.CONVERSATION_COMPLETION_MESSAGE ++ " User message: " ++ content);
         response_create ];
       [ conversation_item_create "system"
           (Prompts.REPORT_GENERATION_MESSAGE
              ++ " Please call the end_consultation function to generate the report.");
         response_create ] ]).
Proof.
  intros Hopen Hpatient Hphase [phrase [Hin Hocc]].
  assert (Hend : any_in completion_phrases (lower content) = true).
  { apply any_in_spec. exists phrase. split; [| exact Hocc].
    cbn in Hin |- *. intuition. }
  assert (Hyes : any_in affirmative_phrases (lower content) = true).
  { apply any_in_spec. exists phrase. split; [| exact Hocc].
    cbn in Hin |- *. intuition. }
  cbn [hear]. unfold on_user_speech_committed, handle_query.
  cbn [set_phase assistant_fnc conversation_phase symptoms_collected].
  rewrite Hopen, Hpatient, Hphase.
  cbn -[any_in completion_phrases affirmative_phrases
        Prompts.CONVERSATION_COMPLETION_MESSAGE Prompts.REPORT_GENERATION_MESSAGE].
  rewrite Hend.
  cbn -[any_in completion_phrases affirmative_phrases
        Prompts.CONVERSATION_COMPLETION_MESSAGE Prompts.REPORT_GENERATION_MESSAGE].
  rewrite Hopen, Hpatient.
  cbn -[any_in completion_phrases affirmative_phrases
        Prompts.CONVERSATION_COMPLETION_MESSAGE Prompts.REPORT_GENERATION_MESSAGE].
  rewrite Hyes. reflexivity.
Qed.

(** X17. An utterance with a completion phrase but no affirmative one, such
    as [that's all], takes the controller from [symptoms] to [completion]
    and, repeated, back to [symptoms]: after the two utterances the
    controller is exactly where it was, and no report has been asked
    for. *)
Theorem undecided_phrase_oscillates (st : agent) (content : string) :
  is_consultation_complete (assistant_fnc st) = false ->
  has_patient (assistant_fnc st) = true ->
  conversation_phase st = "symptoms" ->
  any_in completion_phrases (lower content) = true ->
  any_in affirmative_phrases (lower content) = false ->
  hear st [content; content]
  = (st,
     [ [ conversation_item_create "system"
           (Prompts.CONVERSATION_COMPLETION_MESSAGE ++ " User message: " ++ content);
         response_create ];
       [ conversation_item_create "system"
           ("Continue collecting symptoms or information. User message: " ++ content);
         response_create ] ]).
Proof.
  intros Hopen Hpatient Hphase Hend Hyes.
  cbn [hear]. unfold on_user_speech_committed, handle_query.
  cbn [set_phase assistant_fnc conversation_phase symptoms_collected].
  rewrite Hopen, Hpatient, Hphase.
  cbn -[any_in completion_phrases affirmative_phrases
        Prompts.CONVERSATION_COMPLETION_MESSAGE].
  rewrite Hend.
  cbn -[any_in completion_phrases affirmative_phrases
        Prompts.CONVERSATION_COMPLETION_MESSAGE].
  rewrite Hopen, Hpatient.
  cbn -[any_in completion_phrases affirmative_phrases
        Prompts.CONVERSATION_COMPLETION_MESSAGE].
  rewrite Hyes. cbn [set_phase assistant_fnc conversation_phase symptoms_collected].
  destruct st as [fnc phase collected]. cbn in Hphase. now subst phase.
Qed.

End AgentBehaviour.

(** ** The further properties at work on concrete cases *)

Section MoreInstances.
Import DbDriver Api Agent Scenario Cases.
#[local] Existing Instance Small.runtime.

(** X1 on a creation under the identifier P99999999. *)
Lemma create_supplied_id_stored_witness :
  exists p db',
    DbDriver.create_patient None None clock [] two_patients
      "Bob Wilson" 35 180 "Male" "AB-" 80 (Some "P99999999")
      = Some (Return (Some p), db')
    /\ patient_id p = "P99999999"
    /\ db' !! "P99999999" = Some bob
    /\ forall k, k <> "P99999999" -> db' !! k = two_patients !! k.
Proof.
  apply (create_supplied_id_stored clock [] two_patients "P99999999"
           "Bob Wilson" 35 180 "Male" "AB-" 80).
  - discriminate.
  - reflexivity.
Defined.

(** X2 on Alice's creation when the file is locked at the time her row is
    read back: the call raises, and her row is in the table. *)
Lemma create_writes_one_row_or_none_witness :
  (with_alice = two_patients
   /\ exists e, @Raise (option Patient) locked = Raise e)
  \/ (exists pid,
         pid <> "" /\ two_patients !! pid = None
         /\ with_alice = <[pid := alice_row]> two_patients
         /\ ((Some locked = None
              /\ Raise locked
                 = Return (Some {| patient_id := pid; name := "Alice Johnson";
                                   age := 28; height := 170; gender := "Female";
                                   blood_group := "B+"; weight := 65;
                                   created_at := parse_created_at (Some clock) |}))
             \/ (exists e, Some locked = Some e
                           /\ @Raise (option Patient) locked = Raise e))).
Proof.
  apply (create_writes_one_row_or_none None (Some locked) clock [2345678%N; 7%N]
           two_patients with_alice
           "Alice Johnson" 28 170 "Female" "B+" 65 None (Raise locked)).
  reflexivity.
Defined.

(** The same through the callable: the exception leaves [create_patient],
    Alice is stored, and nobody is adopted. *)
Example create_patient_locked_after_commit :
  Api.create_patient None (Some locked) clock [2345678%N; 7%N] two_patients Api.init
    "Alice Johnson" 28 170 "Female" "B+" 65
  = Some (Raise locked, Api.init, with_alice).
Proof. reflexivity. Qed.

(** X3 on Alice, then Carol, whose first draw is Alice's identifier. *)
Lemma successive_creations_distinct_witness :
  patient_id alice <> patient_id carol
  /\ get_patient_by_id None with_carol (patient_id alice) = Return (Some alice)
  /\ get_patient_by_id None with_carol (patient_id carol) = Return (Some carol).
Proof.
  apply (successive_creations_distinct None None None None clock clock
           [2345678%N; 7%N] [7%N; 8%N] two_patients with_alice with_carol
           "Alice Johnson" "Carol Brown" 28 40 170 175 "Female" "Female"
           "B+" "O-" 65 75 None None alice carol).
  - reflexivity.
  - reflexivity.
Defined.

(** X4 on a first draw that is John's identifier. *)
Lemma generate_takes_first_free_witness :
  _generate_patient_id None two_patients ([2345678%N] ++ 7%N :: [9%N])%list
  = Some (Return (candidate_id 7)).
Proof.
  apply (generate_takes_first_free two_patients [2345678%N] 7%N [9%N]).
  - intros t [<- | []]. vm_compute. discriminate.
  - reflexivity.
Defined.

(** X5 on a creation with the empty string as identifier. *)
Lemma create_never_stores_empty_id_witness :
  with_alice !! "" = None.
Proof.
  apply (create_never_stores_empty_id None None clock [2345678%N; 7%N]
           two_patients with_alice
           "Alice Johnson" 28 170 "Female" "B+" 65 (Some "") (Return (Some alice))).
  - reflexivity.
  - reflexivity.
Defined.

(** A newborn has no age line. *)
Example newborn_has_no_age_line :
  get_patient_str
    (set_details Api.init
       {| d_patient_id := "P10000009"; d_name := "Baby Doe"; d_age := VInt 0;
          d_height := VFloat 50; d_gender := "Female"; d_blood_group := "O+";
          d_weight := VFloat 3 |})
  = "patient_id: P10000009" ++ String "010"
      ("name: Baby Doe" ++ String "010"
         ("height: 50.0" ++ String "010"
            ("gender: Female" ++ String "010"
               ("blood_group: O+" ++ String "010"
                  ("weight: 3.0" ++ String "010" ""))))).
Proof. reflexivity. Qed.

(** X8 on the calls after John's consultation has ended. *)
Lemma calls_never_undo_witness :
  (_conversation_complete john_done = true -> _conversation_complete jane_cough = true)
  /\ (exists added, _symptoms jane_cough = (_symptoms john_done ++ added)%list)
  /\ (forall k r, two_patients !! k = Some r -> two_patients !! k = Some r).
Proof.
  apply (calls_never_undo saving later_calls two_patients two_patients
           john_done jane_cough).
  reflexivity.
Defined.

(** X9 on Alice, created while John's headache is on record. *)
Lemma created_patient_adopted_and_found_witness :
  exists pid,
    id_format pid = true
    /\ "Patient created! Your patient ID is: P10000007"
       = "Patient created! Your patient ID is: " ++ pid
    /\ has_patient (set_details john_headache (adopt alice)) = true
    /\ _patient_details (set_details john_headache (adopt alice))
       = {| d_patient_id := pid; d_name := "Alice Johnson"; d_age := VInt 28;
            d_height := VFloat 170; d_gender := "Female"; d_blood_group := "B+";
            d_weight := VFloat 65 |}
    /\ forall other,
         _patient_details (snd (lookup_patient None with_alice other pid))
         = _patient_details (set_details john_headache (adopt alice)).
Proof.
  apply (created_patient_adopted_and_found None None clock [2345678%N; 7%N]
           two_patients with_alice john_headache
           (set_details john_headache (adopt alice))
           "Alice Johnson" 28 170 "Female" "B+" 65
           "Patient created! Your patient ID is: P10000007").
  reflexivity.
Defined.


(** X13 on John, who ends the symptoms and then goes on. *)
Lemma hearing_never_returns_to_info_collection_witness :
  conversation_phase
    (fst (hear (in_phase "symptoms" john_headache) ["I am done"; "no, wait"]))
  <> "info_collection"
  /\ conversation_phase
       (fst (hear (in_phase "symptoms" john_headache) ["I am done"; "no, wait"]))
     = "symptoms".
Proof.
  split; [| reflexivity].
  apply (hearing_never_returns_to_info_collection ["I am done"; "no, wait"]
           (in_phase "symptoms" john_headache)).
  discriminate.
Defined.

(** X14 on the utterance that ends John's symptoms. *)
Lemma phase_change_needs_patient_witness :
  has_patient john_headache = true
  /\ is_consultation_complete john_headache = false.
Proof.
  apply (phase_change_needs_patient (in_phase "symptoms" john_headache) "I am done").
  vm_compute. discriminate.
Defined.

(** X15 on John, who has denied a fever: the handler asks for the first
    symptom although one is on record. *)
Lemma first_symptom_instruction_witness :
  snd (on_user_speech_committed (in_phase "symptoms" john_no_fever) "but my knee hurts")
  = [ conversation_item_create "system"
        "Collect the patient's symptoms. User message: but my knee hurts";
      response_create ].
Proof.
  apply (proj2 (proj1 (first_symptom_instruction
                         (in_phase "symptoms" john_no_fever) "but my knee hurts"
                         eq_refl eq_refl eq_refl eq_refl))).
  right. exists "No symptoms of fever". split.
  - left. reflexivity.
  - exists "", " of fever". reflexivity.
Defined.

(** X16 on John saying that he is done, twice. *)
Lemma done_twice_requests_report_witness :
  hear (in_phase "symptoms" john_headache) ["I am done"; "I am done"]
  = (in_phase "completion" john_headache,
     [ [ conversation_item_create "system"
           (Prompts.CONVERSATION_COMPLETION_MESSAGE ++ " User message: I am done");
         response_create ];
       [ conversation_item_create "system"
           (Prompts.REPORT_GENERATION_MESSAGE
              ++ " Please call the end_consultation function to generate the report.");
         response_create ] ]).
Proof.
  apply (done_twice_requests_report (in_phase "symptoms" john_headache) "I am done"
           eq_refl eq_refl eq_refl).
  exists "done". split.
  - left. reflexivity.
  - exists "i am ", "". reflexivity.
Defined.

(** X17 on John saying [That's all], twice. *)
Lemma undecided_phrase_oscillates_witness :
  hear (in_phase "symptoms" john_headache) ["That's all"; "That's all"]
  = (in_phase "symptoms" john_headache,
     [ [ conversation_item_create "system"
           (Prompts.CONVERSATION_COMPLETION_MESSAGE ++ " User message: That's all");
         response_create ];
       [ conversation_item_create "system"
           "Continue collecting symptoms or information. User message: That's all";
         response_create ] ]).
Proof.
  apply (undecided_phrase_oscillates (in_phase "symptoms" john_headache) "That's all"
           eq_refl eq_refl eq_refl eq_refl eq_refl).
Defined.

End MoreInstances.
